(** * gupload: input resolution and upload orchestration

    A shallow embedding of [lib/cli.py] (class [gupload]): the checks
    [checkFile] and [checkListFile], the password obscuring used for the
    debug log, and the method [gupload.gupload], which resolves the
    command-line paths into workout tuples, logs in and uploads them.

    The method is imperative Python: it appends to local lists, logs through
    [self.msgLogger], calls the remote session object [g], prints one line
    per workout and raises [IOError] in two places.  It is embedded in a
    small monad [M] that returns a value or a raised exception together with
    the trace of observable events (log calls, session calls, printed
    lines), in program order.  The state of the session object is passed
    explicitly. *)

From Stdlib Require Import String Ascii List Bool Arith Lia.
Import ListNotations.
Local Open Scope list_scope.
Local Open Scope string_scope.

(** ** The parts of the Python library the code calls *)

Module Py.

(** [str.lower] on the ASCII letters. *)
Definition lower_ascii (c : ascii) : ascii :=
  let n := nat_of_ascii c in
  if ((65 <=? n) && (n <=? 90))%nat then ascii_of_nat (n + 32) else c.

Fixpoint lower (s : string) : string :=
  match s with
  | EmptyString => EmptyString
  | String c r => String (lower_ascii c) (lower r)
  end.

(** [s.rfind(c)] for a one-character [c]: the last index of [c], if any. *)
Fixpoint rfind (c : ascii) (s : string) : option nat :=
  match s with
  | EmptyString => None
  | String d r =>
      match rfind c r with
      | Some i => Some (S i)
      | None => if Ascii.eqb c d then Some 0 else None
      end
  end.

Fixpoint all_dots (s : string) : bool :=
  match s with
  | EmptyString => true
  | String c r => Ascii.eqb c "." && all_dots r
  end.

(** [posixpath.splitext]: the extension starts at the last dot that comes
    after the last slash, unless only dots stand between that slash and the
    dot (leading dots of the file name are no extension). *)
Definition splitext (p : string) : string * string :=
  let filenameIndex := match rfind "/" p with Some i => S i | None => 0 end in
  match rfind "." p with
  | Some dotIndex =>
      if (filenameIndex <=? dotIndex)%nat
         && negb (all_dots (substring filenameIndex (dotIndex - filenameIndex) p))
      then (substring 0 dotIndex p, substring dotIndex (String.length p - dotIndex) p)
      else (p, EmptyString)
  | None => (p, EmptyString)
  end.

Definition startswith_slash (s : string) : bool :=
  match s with
  | String c _ => Ascii.eqb c "/"
  | EmptyString => false
  end.

Fixpoint endswith_slash (s : string) : bool :=
  match s with
  | EmptyString => false
  | String c EmptyString => Ascii.eqb c "/"
  | String _ r => endswith_slash r
  end.

(** [posixpath.join] of two components. *)
Definition join (a b : string) : string :=
  if startswith_slash b then b
  else if String.eqb a EmptyString || endswith_slash a then a ++ b
  else a ++ "/" ++ b.

(** [x in t] for a tuple of strings. *)
Definition str_in (x : string) (t : list string) : bool :=
  existsb (String.eqb x) t.

(** Truth value of an optional string: [None] and the empty string are
    false. *)
Definition truthy (o : option string) : bool :=
  match o with
  | Some (String _ _) => true
  | _ => false
  end.

End Py.

(** What the run reads from its environment: the file system ([os.path],
    [os.listdir], [glob.glob]) and the rows [csv.DictReader] yields for a
    list file. *)
Record csvRow := mkRow {
  row_filename : string;
  row_name : option string;
  row_type : option string
}.

Record FileSystem := mkFS {
  isfile : string -> bool;
  isdir : string -> bool;
  glob : string -> list string;
  listdir : string -> list string;
  abspath : string -> string;
  DictReader : string -> list csvRow
}.

(** ** Observable events, exceptions and the monad *)

Inductive exn :=
| IOError (msg : string)
| IndexError (msg : string).

Inductive level := DEBUG | INFO | WARNING | CRITICAL.

Inductive call :=
| Login (username password : string)
| UploadFile (filename : string)
| SetWorkoutName (id name : string)
| SetActivityType (id type : string).

(** The five fields of a printed report line. *)
Record JobStatus := mkStatus {
  js_file : string;
  js_id : string;
  js_status : string;
  js_name : string;
  js_type : string
}.

Inductive event :=
| Log (lvl : level) (msg : string)
| Call (c : call)
| Print (line : JobStatus).

Inductive result (A : Type) :=
| Ok (a : A)
| Raise (e : exn).
Arguments Ok {A} a.
Arguments Raise {A} e.

Definition M (A : Type) : Type := result A * list event.

Definition ret {A} (a : A) : M A := (Ok a, []).

Definition raise {A} (e : exn) : M A := (Raise e, []).

Definition bind {A B} (m : M A) (k : A -> M B) : M B :=
  match m with
  | (Ok a, t1) => let (r, t2) := k a in (r, (t1 ++ t2)%list)
  | (Raise e, t1) => (Raise e, t1)
  end.

Definition emit (e : event) : M unit := (Ok tt, [e]).

Declare Scope monad_scope.
Delimit Scope monad_scope with monad.
Notation "x <- m ;; k" := (bind m (fun x => k))
  (at level 61, m at next level, right associativity) : monad_scope.
Notation "' p <- m ;; k" := (bind m (fun x => let 'p := x in k))
  (at level 61, p pattern, m at next level, right associativity) : monad_scope.
Notation "m ;; k" := (bind m (fun _ => k))
  (at level 61, right associativity) : monad_scope.
Local Open Scope monad_scope.

(** A [for] loop whose body updates local variables [b]. *)
Fixpoint foldM {A B} (f : B -> A -> M B) (b : B) (l : list A) : M B :=
  match l with
  | [] => ret b
  | a :: l' => b' <- f b a ;; foldM f b' l'
  end.

Definition debug (msg : string) : M unit := emit (Log DEBUG msg).
Definition info (msg : string) : M unit := emit (Log INFO msg).
Definition warning (msg : string) : M unit := emit (Log WARNING msg).
Definition critical (msg : string) : M unit := emit (Log CRITICAL msg).

(** Projections of a run. *)
Definition outcome {A} (m : M A) : result A := fst m.
Definition trace {A} (m : M A) : list event := snd m.

Definition calls_of (t : list event) : list call :=
  flat_map (fun e => match e with Call c => [c] | _ => [] end) t.

Definition printed_of (t : list event) : list JobStatus :=
  flat_map (fun e => match e with Print l => [l] | _ => [] end) t.

Definition is_log (e : event) : Prop :=
  match e with Log _ _ => True | _ => False end.

(** ** The uploader module *)

(** Modelled from the spec: [uploader.VALID_GARMIN_FILE_EXTENSIONS] is not
    part of [lib/cli.py]; it is the fixed set of the three accepted
    activity-file extensions, which the comment in [checkFile] lists as
    .tcx, .fit and .gpx. *)
Definition VALID_GARMIN_FILE_EXTENSIONS : list string :=
  [".tcx"; ".fit"; ".gpx"].

(** Modelled from the spec: the class [uploader.UploadGarmin] is not part of
    [lib/cli.py].  Section 6 gives the four methods the run calls and what
    they answer: [login] a boolean, [upload_file] a status and an identifier
    or message, [set_workout_name] and [set_activity_type] a boolean.  Each
    method also returns the next state of the session object. *)
Record Uploader := mkUploader {
  session : Type;
  UploadGarmin : nat -> session;
  login : session -> string -> string -> bool * session;
  upload_file : session -> string -> (string * string) * session;
  set_workout_name : session -> string -> string -> bool * session;
  set_activity_type : session -> string -> string -> bool * session
}.

(** ** class gupload *)

Record workoutTuple := mkWorkout {
  filename : string;
  name : option string;
  type : option string
}.

(** The attributes of [self] that the method [gupload] reads. *)
Record gupload_self := mkSelf {
  logLevel : nat;
  paths : list string;
  activityType : option string;
  activityName : option string;
  username : string;
  password : string
}.

(** [obscurePassword]: the else branch indexes [password[0]], which raises
    [IndexError] on the empty string. *)
Definition obscurePassword (password : string) : M string :=
  match password with
  | EmptyString => raise (IndexError "string index out of range")
  | String _ EmptyString => ret "*"
  | String _ (String c1 EmptyString) => ret (String c1 "*")
  | String c0 _ =>
      let n := String.length password in
      let stars := fold_left (fun obscured _ => obscured ++ "*")
                             (seq 1 (n - 1 - 1)) (String c0 EmptyString) in
      ret (stars ++ substring (n - 1) 1 password)
  end.

Section Resolve.

Variable fs : FileSystem.

Definition checkFile (filename : string) : M bool :=
  debug ("Filename: " ++ filename) ;;
  if isfile fs filename then
    debug "File exists." ;;
    let extension := Py.lower (snd (Py.splitext filename)) in
    debug ("File Extension: " ++ extension) ;;
    if Py.str_in extension VALID_GARMIN_FILE_EXTENSIONS then
      debug ("File '" ++ filename ++ "' extension '" ++ extension ++ "' is valid.") ;;
      ret true
    else
      warning ("File '" ++ filename ++ "' extension '" ++ extension
               ++ "' is not valid. Skipping file...") ;;
      ret false
  else
    warning ("File '" ++ filename ++ "' does not exist. Skipping...") ;;
    ret false.

Definition checkListFile (filename : string) : M bool :=
  let extension := Py.lower (snd (Py.splitext filename)) in
  if String.eqb extension ".csv" && isfile fs filename then
    info ("List file '" ++ filename ++ "' will be processed...") ;;
    ret true
  else
    ret false.

(** The three local lists the first loop fills. *)
Record lists := mkLists {
  filenames : list string;
  dirnames : list string;
  listfiles : list string
}.

(** Body of the inner loop over [glob.glob(fileArg)]. *)
Definition sort_wildcard (fileArg : string) (ls : lists) (wildcard : string)
  : M lists :=
  isFitness <- checkFile fileArg ;;
  if isFitness then
    ret (mkLists (filenames ls ++ [fileArg])%list (dirnames ls) (listfiles ls))
  else
    isList <- checkListFile wildcard ;;
    if isList then
      ret (mkLists (filenames ls) (dirnames ls) (listfiles ls ++ [wildcard])%list)
    else if isdir fs wildcard then
      ret (mkLists (filenames ls) (dirnames ls ++ [abspath fs wildcard])%list
                   (listfiles ls))
    else ret ls.

(** The loop over [self.paths]. *)
Definition sort_paths (paths : list string) : M lists :=
  foldM (fun ls fileArg => foldM (sort_wildcard fileArg) ls (glob fs fileArg))
        (mkLists [] [] []) paths.

(** Body of the inner loop over [os.listdir(dirname)]. *)
Definition add_child (dirname : string) (ls : lists) (child : string)
  : M lists :=
  let filename := Py.join dirname child in
  isFitness <- checkFile filename ;;
  if isFitness then
    ret (mkLists (filenames ls ++ [filename])%list (dirnames ls) (listfiles ls))
  else ret ls.

(** The loop over [dirnames]. *)
Definition add_from_dirs (ls : lists) : M lists :=
  foldM (fun ls dirname => foldM (add_child dirname) ls (listdir fs dirname))
        ls (dirnames ls).

(** The [-a] option applies to a single fitness file only. *)
Definition check_activityName (filenames : list string)
  (activityName : option string) : M (option string) :=
  if negb (List.length filenames =? 1)%nat && Py.truthy activityName then
    warning "-a option valid only when one fitness file given.  Ignoring -a option." ;;
    ret None
  else ret activityName.

(** The loop that builds a workout tuple for each of [filenames]. *)
Definition build_workouts (filenames : list string)
  (activityName activityType : option string) : list workoutTuple :=
  fold_left (fun workouts filename =>
               (workouts ++ [mkWorkout filename activityName activityType])%list)
            filenames [].

(** Body of the loop over the rows of a list file. *)
Definition add_row (workouts : list workoutTuple) (row : csvRow)
  : M (list workoutTuple) :=
  isFitness <- checkFile (row_filename row) ;;
  if isFitness then
    ret (workouts ++ [mkWorkout (row_filename row) (row_name row) (row_type row)])%list
  else ret workouts.

(** The loop over [listfiles]. *)
Definition add_from_listfiles (workouts : list workoutTuple)
  (listfiles : list string) : M (list workoutTuple) :=
  foldM (fun workouts listfile => foldM add_row workouts (DictReader fs listfile))
        workouts listfiles.

(** The first two loops of [gupload]: the three lists once the directories
    have been searched. *)
Definition collect (paths : list string) : M lists :=
  ls <- sort_paths paths ;;
  add_from_dirs ls.

(** The list [workouts] as it stands when the list files have been read. *)
Definition make_workouts (self : gupload_self) : M (list workoutTuple) :=
  ls <- collect (paths self) ;;
  activityName <- check_activityName (filenames ls) (activityName self) ;;
  let workouts := build_workouts (filenames ls) activityName (activityType self) in
  add_from_listfiles workouts (listfiles ls).

(** The first half of [gupload], up to the check that there is something to
    upload. *)
Definition resolve (self : gupload_self) : M (list workoutTuple) :=
  workouts <- make_workouts self ;;
  if (List.length workouts =? 0)%nat then
    critical "No valid Files." ;;
    raise (IOError "No valid files.")
  else ret workouts.

End Resolve.

Section Upload.

Variable U : Uploader.

Definition g_login (g : session U) (username password : string)
  : M (bool * session U) :=
  emit (Call (Login username password)) ;;
  ret (login U g username password).

Definition g_upload_file (g : session U) (filename : string)
  : M (string * string * session U) :=
  emit (Call (UploadFile filename)) ;;
  ret (upload_file U g filename).

Definition g_set_workout_name (g : session U) (id name : string)
  : M (bool * session U) :=
  emit (Call (SetWorkoutName id name)) ;;
  ret (set_workout_name U g id name).

Definition g_set_activity_type (g : session U) (id type : string)
  : M (bool * session U) :=
  emit (Call (SetActivityType id type)) ;;
  ret (set_activity_type U g id type).

(** Body of the upload loop: upload, name and type one workout and print its
    report line. *)
Definition upload_workout (g : session U) (workout : workoutTuple)
  : M (session U) :=
  '(status, id_msg, g) <- g_upload_file g (filename workout) ;;
  let nstat := "N/A" in
  let tstat := "N/A" in
  '(nstat, tstat, g) <-
    (if String.eqb status "SUCCESS" then
       '(nstat, g) <-
         match name workout with
         | Some (String _ _ as n) =>
             '(ok, g) <- g_set_workout_name g id_msg n ;;
             ret (if ok : bool then n else "FAIL!", g)
         | _ => ret (nstat, g)
         end ;;
       '(tstat, g) <-
         match type workout with
         | Some (String _ _ as t) =>
             '(ok, g) <- g_set_activity_type g id_msg t ;;
             ret (if ok : bool then t else "FAIL!", g)
         | _ => ret (tstat, g)
         end ;;
       ret (nstat, tstat, g)
     else ret (nstat, tstat, g)) ;;
  emit (Print (mkStatus (filename workout) id_msg status nstat tstat)) ;;
  ret g.

(** The upload loop. *)
Definition upload_all (g : session U) (workouts : list workoutTuple)
  : M (session U) :=
  foldM upload_workout g workouts.

(** The second half of [gupload]: create the session object, log in and
    upload the workouts. *)
Definition login_and_upload (self : gupload_self)
  (workouts : list workoutTuple) : M unit :=
  let g := UploadGarmin U (logLevel self) in
  '(ok, g) <- g_login g (username self) (password self) ;;
  if negb ok then
    let msg := "LOGIN FAILED - please verify your login credentials" in
    critical msg ;;
    raise (IOError msg)
  else
    info "Login Successful." ;;
    _ <- upload_all g workouts ;;
    ret tt.

Variable fs : FileSystem.

Definition gupload (self : gupload_self) : M unit :=
  debug ("Username: " ++ username self) ;;
  obscured <- obscurePassword (password self) ;;
  debug ("Password: " ++ obscured) ;;
  workouts <- resolve fs self ;;
  login_and_upload self workouts.

(** A session whose methods leave its state as it is. *)
Definition read_only : Prop :=
  (forall g filename, snd (upload_file U g filename) = g) /\
  (forall g id name, snd (set_workout_name U g id name) = g) /\
  (forall g id type, snd (set_activity_type U g id type) = g).

End Upload.

(** ** A small file system and two sessions, to run the code on *)

Module Demo.

Definition cwd : string := "/home/u".

Definition demo_abspath (p : string) : string := Py.join cwd p.

Definition files : list string :=
  ["/home/u/ride.fit"; "/home/u/run.fit"; "/home/u/a.tcx"; "/home/u/b.TCX";
   "/home/u/batch.csv"; "/home/u/more.csv"; "/home/u/notes.txt";
   "/home/u/acts/x.gpx"; "/home/u/acts/notes.txt"; "/home/u/acts/list.csv";
   "/home/u/acts/sub/deep.fit"].

Definition dirs : list string :=
  ["/home/u"; "/home/u/acts"; "/home/u/acts/sub"; "/home/u/empty"].

Definition demo_glob (pattern : string) : list string :=
  if String.eqb pattern "*.fit" then ["ride.fit"; "run.fit"]
  else if String.eqb pattern "*.csv" then ["batch.csv"; "more.csv"]
  else if Py.str_in (demo_abspath pattern) (files ++ dirs)%list then [pattern]
  else [].

Definition demo_listdir (d : string) : list string :=
  if String.eqb d "/home/u/acts" then ["x.gpx"; "notes.txt"; "list.csv"; "sub"]
  else [].

Definition demo_rows (listfile : string) : list csvRow :=
  if String.eqb (demo_abspath listfile) "/home/u/batch.csv" then
    [mkRow "a.tcx" (Some "Lake Loop") (Some "cycling");
     mkRow "missing.fit" (Some "Ghost") (Some "running")]
  else if String.eqb (demo_abspath listfile) "/home/u/more.csv" then
    [mkRow "run.fit" (Some "X") None]
  else [].

Definition fs : FileSystem :=
  mkFS (fun p => Py.str_in (demo_abspath p) files)
       (fun p => Py.str_in (demo_abspath p) dirs)
       demo_glob demo_listdir demo_abspath demo_rows.

(** A session without state that accepts every login except the password
    [bad], fails the upload of [run.fit] and fails to name an activity
    [Ghost]. *)
Definition server : Uploader :=
  mkUploader unit (fun _ => tt)
    (fun g _ p => (negb (String.eqb p "bad"), g))
    (fun g f => (if String.eqb f "run.fit" then ("FAIL", "duplicate")
                 else ("SUCCESS", "id:" ++ f), g))
    (fun g _ n => (negb (String.eqb n "Ghost"), g))
    (fun g _ _ => (true, g)).

Definition self0 (paths : list string) (name type : option string)
  : gupload_self :=
  mkSelf 30 paths type name "user" "secret".

(** Two fitness files and a list file, with a name and a type. *)
Definition two_files : gupload_self :=
  self0 ["ride.fit"; "run.fit"; "batch.csv"] (Some "X") (Some "running").

Definition two_files_lists : lists :=
  mkLists ["ride.fit"; "run.fit"] [] ["batch.csv"].

Definition ride : workoutTuple :=
  mkWorkout "ride.fit" None (Some "running").

Definition run : workoutTuple :=
  mkWorkout "run.fit" None (Some "running").

Definition lake_loop : workoutTuple :=
  mkWorkout "a.tcx" (Some "Lake Loop") (Some "cycling").

(** One fitness file and a list file, with a name and a type. *)
Definition one_file : gupload_self :=
  self0 ["ride.fit"; "batch.csv"] (Some "X") (Some "running").

Definition one_file_lists : lists :=
  mkLists ["ride.fit"] [] ["batch.csv"].

Definition named_ride : workoutTuple :=
  mkWorkout "ride.fit" (Some "X") (Some "running").

(** The same file with a password the server refuses. *)
Definition refused : gupload_self :=
  mkSelf 30 ["ride.fit"] None None "user" "bad".

(** A file that is no fitness file. *)
Definition nothing_valid : gupload_self :=
  self0 ["notes.txt"] None None.

End Demo.

(** ** The classification of section 4.1 of the specification *)

Definition extension (p : string) : string := Py.lower (snd (Py.splitext p)).

(** A path is an activity file iff it is a regular file and its lowered
    extension is one of the accepted ones. *)
Definition ActivityFile (fs : FileSystem) (p : string) : bool :=
  isfile fs p && Py.str_in (extension p) VALID_GARMIN_FILE_EXTENSIONS.

(** A path is a manifest file iff its lowered extension is the manifest
    extension and it is a regular file. *)
Definition ManifestFile (fs : FileSystem) (p : string) : bool :=
  String.eqb (extension p) ".csv" && isfile fs p.

(** A run that returns [a] and does nothing but log. *)
Definition runs_to {A} (m : M A) (a : A) : Prop :=
  outcome m = Ok a /\ Forall is_log (trace m).

(** The workout tuple of a manifest row. *)
Definition workout_of_row (row : csvRow) : workoutTuple :=
  mkWorkout (row_filename row) (row_name row) (row_type row).

Section Contributions.

Variable fs : FileSystem.

(** What one command-line argument adds to each of the three lists. *)
Definition arg_filenames (fileArg : string) : list string :=
  if ActivityFile fs fileArg then repeat fileArg (List.length (glob fs fileArg))
  else [].

Definition arg_listfiles (fileArg : string) : list string :=
  if ActivityFile fs fileArg then []
  else filter (ManifestFile fs) (glob fs fileArg).

Definition arg_dirnames (fileArg : string) : list string :=
  if ActivityFile fs fileArg then []
  else map (abspath fs)
           (filter (fun wildcard => negb (ManifestFile fs wildcard)
                                    && isdir fs wildcard)
                   (glob fs fileArg)).

(** The children of a directory that are activity files, in the order of
    [os.listdir]. *)
Definition dir_filenames (dirname : string) : list string :=
  filter (ActivityFile fs) (map (Py.join dirname) (listdir fs dirname)).

(** The workouts of the rows of a list file whose file is an activity
    file, in row order. *)
Definition listfile_workouts (listfile : string) : list workoutTuple :=
  map workout_of_row
      (filter (fun row => ActivityFile fs (row_filename row))
              (DictReader fs listfile)).

(** The values the three loop bodies return. *)
Definition sort_wildcard_value (fileArg : string) (ls : lists)
  (wildcard : string) : lists :=
  if ActivityFile fs fileArg then
    mkLists (filenames ls ++ [fileArg])%list (dirnames ls) (listfiles ls)
  else if ManifestFile fs wildcard then
    mkLists (filenames ls) (dirnames ls) (listfiles ls ++ [wildcard])%list
  else if isdir fs wildcard then
    mkLists (filenames ls) (dirnames ls ++ [abspath fs wildcard])%list
            (listfiles ls)
  else ls.

Definition add_child_value (dirname : string) (ls : lists) (child : string)
  : lists :=
  if ActivityFile fs (Py.join dirname child) then
    mkLists (filenames ls ++ [Py.join dirname child])%list (dirnames ls)
            (listfiles ls)
  else ls.

Definition add_row_value (workouts : list workoutTuple) (row : csvRow)
  : list workoutTuple :=
  if ActivityFile fs (row_filename row) then
    (workouts ++ [workout_of_row row])%list
  else workouts.

End Contributions.

(** The name the workouts built from [filenames] get. *)
Definition effective_name (filenames : list string)
  (activityName : option string) : option string :=
  if negb (List.length filenames =? 1)%nat && Py.truthy activityName then None
  else activityName.

(** [self] as it is when no [-a] option was given. *)
Definition without_name (self : gupload_self) : gupload_self :=
  mkSelf (logLevel self) (paths self) (activityType self) None
         (username self) (password self).

(** The warning that tells that the [-a] option is ignored. *)
Definition ignoring_name : event :=
  Log WARNING
      "-a option valid only when one fitness file given.  Ignoring -a option.".

(** The statement that a workout has a name only if it comes from a row of
    a list file, or has the name of the command line and is the only
    workout of the batch. *)
Definition named_only_when_alone (fs : FileSystem) (self : gupload_self)
  : Prop :=
  forall ls workouts i w,
    outcome (collect fs (paths self)) = Ok ls ->
    outcome (resolve fs self) = Ok workouts ->
    nth_error workouts i = Some w ->
    Py.truthy (name w) = true ->
    List.length (filenames ls) <= i \/
    (name w = activityName self /\ List.length workouts = 1).

(** ** The constructor and the script *)

(** The attributes of the [options] object of [argparse] that [__init__]
    reads; an option that was not given is [None]. *)
Record options := mkOptions {
  opt_verbose : nat;
  opt_paths : list string;
  opt_type : option string;
  opt_name : option string;
  opt_username : option string;
  opt_password : option string
}.

(** The exceptions of the module [ConfigParser]: those of [read] on a file
    that does not parse, and those of [get]. *)
Inductive config_error :=
| MissingSectionHeaderError
| ParsingError
| NoSectionError (section : string)
| NoOptionError (option section : string).

(** A parser that has read a file: [config.get(section, option)]. *)
Definition parser : Type := string -> string -> config_error + string.

(** What [__init__] reads besides the file system: [platform.system()],
    [os.path.normpath], [os.path.expanduser] and the parser that
    [RawConfigParser] becomes when it reads a file. *)
Record Platform := mkPlatform {
  platform_system : string;
  normpath : string -> string;
  expanduser : string -> string;
  RawConfigParser_read : string -> config_error + parser
}.

Inductive init_exn :=
| Exn (e : exn)
| ConfigParserError (e : config_error).

Section Init.

Variable plat : Platform.
Variable fs : FileSystem.

Definition configFile : string :=
  if String.eqb (platform_system plat) "Windows" then "gupload.ini"
  else ".guploadrc".

Definition configCurrentDir : string :=
  abspath fs (normpath plat ("./" ++ configFile)).

Definition configHomeDir : string :=
  expanduser plat (normpath plat ("~/" ++ configFile)).

(** The four lines that read the credentials from a config file. *)
Definition config_credentials (file : string)
  : config_error + (string * string) :=
  match RawConfigParser_read plat file with
  | inl e => inl e
  | inr config =>
      match config "Credentials" "username" with
      | inl e => inl e
      | inr username =>
          match config "Credentials" "password" with
          | inl e => inl e
          | inr password => inr (username, password)
          end
      end
  end.

(** [gupload.__init__]: the object, or the exception raised, and what was
    logged.  (The set-up of the logger itself is left out.) *)
Definition __init__ (options : options)
  : (init_exn + gupload_self) * list event :=
  let logLevel := opt_verbose options * 10 in
  let new := mkSelf logLevel (opt_paths options) (opt_type options)
                    (opt_name options) in
  let from_file file :=
    match config_credentials file with
    | inl e => inl (ConfigParserError e)
    | inr (username, password) => inr (new username password)
    end in
  match opt_username options, opt_password options with
  | Some (String _ _ as username), Some (String _ _ as password) =>
      (inr (new username password),
       [Log DEBUG "Using credentials from command line."])
  | _, _ =>
      if isfile fs configCurrentDir then
        (from_file configCurrentDir,
         [Log DEBUG ("Using credentials from '" ++ configCurrentDir ++ "'.")])
      else if isfile fs configHomeDir then
        (from_file configHomeDir,
         [Log DEBUG ("Using credentials from '" ++ configHomeDir ++ "'.")])
      else
        let cwd := abspath fs (normpath plat "./") in
        let homepath := expanduser plat (normpath plat "~/") in
        let msg := "'" ++ configFile
                   ++ "' file does not exist in current directory (" ++ cwd
                   ++ ") or home directory (" ++ homepath
                   ++ ").  Use -l option." in
        (inl (Exn (IOError msg)), [Log CRITICAL msg])
  end.

Variable U : Uploader.


End Init.

(** ** What the log and the calls show *)

Definition is_warning (e : event) : bool :=
  match e with Log WARNING _ => true | _ => false end.

Definition warnings_of (t : list event) : list event := filter is_warning t.

(** The warning [checkFile] logs for a path it refuses: none for a fitness
    file, else one that tells whether the file is missing or has another
    extension. *)
Definition refusal (fs : FileSystem) (p : string) : list event :=
  if ActivityFile fs p then []
  else if isfile fs p then
    [Log WARNING ("File '" ++ p ++ "' extension '" ++ extension p
                  ++ "' is not valid. Skipping file...")]
  else [Log WARNING ("File '" ++ p ++ "' does not exist. Skipping...")].

(** The value of an option when it counts as given. *)
Definition given (o : option string) : list string :=
  match o with
  | Some (String c r) => [String c r]
  | _ => []
  end.

(** The files of the [upload_file] calls. *)
Definition uploads_of (calls : list call) : list string :=
  flat_map (fun c => match c with UploadFile f => [f] | _ => [] end) calls.

(** [n] stars. *)
Fixpoint stars (n : nat) : string :=
  match n with
  | 0 => EmptyString
  | S n' => String "*" (stars n')
  end.

(** A platform and a file system with a config file in the home directory,
    which is also the current directory; the password in it is empty. *)
Module DemoInit.

Definition demo_normpath (p : string) : string :=
  if String.eqb p "./" then "."
  else if String.eqb p "~/" then "~"
  else if prefix "./" p then substring 2 (String.length p - 2) p
  else p.

Definition demo_expanduser (p : string) : string :=
  if String.eqb p "~" then Demo.cwd
  else if prefix "~/" p then
    Py.join Demo.cwd (substring 2 (String.length p - 2) p)
  else p.

Definition demo_read (file : string) : config_error + parser :=
  inr (fun section option =>
         if negb (String.eqb file "/home/u/.guploadrc") then
           inl (NoSectionError section)
         else if negb (String.eqb section "Credentials") then
           inl (NoSectionError section)
         else if String.eqb option "username" then inr "alice"
         else if String.eqb option "password" then inr EmptyString
         else inl (NoOptionError option section)).

Definition plat : Platform :=
  mkPlatform "Linux" demo_normpath demo_expanduser demo_read.

Definition fs : FileSystem :=
  mkFS (fun p => isfile Demo.fs p
                 || String.eqb (Demo.demo_abspath p) "/home/u/.guploadrc")
       (isdir Demo.fs) (glob Demo.fs) (listdir Demo.fs)
       (fun p => if String.eqb p "." then Demo.cwd else Demo.demo_abspath p)
       (DictReader Demo.fs).


Definition without_login : options :=
  mkOptions 3 ["ride.fit"] None None (Some "user") None.

(** A workout whose naming the server refuses. *)
Definition ghost : workoutTuple :=
  mkWorkout "a.tcx" (Some "Ghost") (Some "cycling").

End DemoInit.

(** ** The monad *)

Local Open Scope list_scope.

Lemma bind_Ok {A B} (m : M A) (k : A -> M B) (a : A) :
  outcome m = Ok a ->
  bind m k = (outcome (k a), (trace m ++ trace (k a))%list).
Proof.
  destruct m as [r t]; simpl; intros ->; simpl.
  destruct (k a); reflexivity.
Qed.

Lemma bind_Raise {A B} (m : M A) (k : A -> M B) (e : exn) :
  outcome m = Raise e -> bind m k = (Raise e, trace m).
Proof. destruct m as [r t]; simpl; intros ->; reflexivity. Qed.

Lemma runs_to_ret {A} (a : A) : runs_to (ret a) a.
Proof. split; [reflexivity | constructor]. Qed.

Lemma runs_to_bind {A B} (m : M A) (k : A -> M B) (a : A) (b : B) :
  runs_to m a -> runs_to (k a) b -> runs_to (bind m k) b.
Proof.
  intros [Hm Hl] [Hk Hl']. rewrite (bind_Ok _ _ _ Hm).
  split; simpl; [exact Hk | apply Forall_app; split; assumption].
Qed.

Lemma runs_to_foldM {A B} (f : B -> A -> M B) (g : B -> A -> B) :
  (forall b a, runs_to (f b a) (g b a)) ->
  forall l b, runs_to (foldM f b l) (fold_left g l b).
Proof.
  intros Hf l; induction l as [|a l IH]; intros b; simpl.
  - apply runs_to_ret.
  - eapply runs_to_bind; [apply Hf | apply IH].
Qed.

Lemma bind_ret_l {A B} (a : A) (k : A -> M B) : bind (ret a) k = k a.
Proof. unfold bind, ret. destruct (k a); reflexivity. Qed.

Lemma bind_assoc {A B C} (m : M A) (k : A -> M B) (h : B -> M C) :
  bind (bind m k) h = bind m (fun a => bind (k a) h).
Proof.
  destruct m as [[a|e] t]; simpl; [| reflexivity].
  destruct (k a) as [[b|e] t2]; simpl; [| reflexivity].
  destruct (h b); rewrite app_assoc; reflexivity.
Qed.

Lemma bind_ext {A B} (m : M A) (k1 k2 : A -> M B) :
  (forall a, k1 a = k2 a) -> bind m k1 = bind m k2.
Proof.
  intros E. destruct m as [[a|e] t]; simpl; [rewrite E |]; reflexivity.
Qed.

Lemma foldM_app {A B} (f : B -> A -> M B) (l1 l2 : list A) :
  forall b, foldM f b (l1 ++ l2) = bind (foldM f b l1) (fun b' => foldM f b' l2).
Proof.
  induction l1 as [|a l1 IH]; intros b; cbn [foldM app].
  - rewrite bind_ret_l. reflexivity.
  - rewrite bind_assoc. apply bind_ext. intros b'. apply IH.
Qed.

Lemma runs_to_log (lvl : level) (msg : string) : runs_to (emit (Log lvl msg)) tt.
Proof. split; [reflexivity | repeat constructor]. Qed.

Ltac run_step :=
  first [ apply runs_to_ret
        | eapply runs_to_bind;
          [ first [apply runs_to_log | eassumption] | cbv beta ] ].

(** ** The two checks *)

Section Checks.

Variable fs : FileSystem.

Lemma checkFile_runs (p : string) : runs_to (checkFile fs p) (ActivityFile fs p).
Proof.
  unfold checkFile, ActivityFile, debug, warning, extension.
  destruct (isfile fs p); [destruct (Py.str_in _ _) |];
    cbn [andb]; repeat run_step.
Qed.

Lemma checkListFile_runs (p : string) :
  runs_to (checkListFile fs p) (ManifestFile fs p).
Proof.
  unfold checkListFile, ManifestFile, info, extension.
  destruct (_ && _); repeat run_step.
Qed.

Lemma str_in_In (x : string) (t : list string) :
  Py.str_in x t = true <-> In x t.
Proof.
  unfold Py.str_in. rewrite existsb_exists. split.
  - intros [y [Hy He]]. apply String.eqb_eq in He. subst; assumption.
  - intros H. exists x. split; [assumption | apply String.eqb_refl].
Qed.

(** C7: [checkFile] returns, without raising, whether the path is a regular
    file whose lowered extension is one of the accepted ones, and
    [checkListFile] returns, without raising, whether the lowered extension
    is [.csv] and the path is a regular file. *)
Theorem checkFile_checkListFile_classify (p : string) :
  (exists b, outcome (checkFile fs p) = Ok b /\
     (b = true <->
      isfile fs p = true /\
      In (Py.lower (snd (Py.splitext p))) VALID_GARMIN_FILE_EXTENSIONS)) /\
  (exists b, outcome (checkListFile fs p) = Ok b /\
     (b = true <->
      Py.lower (snd (Py.splitext p)) = ".csv" /\ isfile fs p = true)).
Proof.
  split.
  - exists (ActivityFile fs p). split; [apply checkFile_runs |].
    unfold ActivityFile, extension.
    rewrite andb_true_iff, str_in_In. reflexivity.
  - exists (ManifestFile fs p). split; [apply checkListFile_runs |].
    unfold ManifestFile, extension.
    rewrite andb_true_iff, String.eqb_eq. reflexivity.
Qed.

End Checks.

(** ** The loops of the resolution *)

Section Loops.

Variable fs : FileSystem.

Lemma sort_wildcard_runs (fileArg : string) (ls : lists) (wildcard : string) :
  runs_to (sort_wildcard fs fileArg ls wildcard)
          (sort_wildcard_value fs fileArg ls wildcard).
Proof.
  unfold sort_wildcard, sort_wildcard_value.
  eapply runs_to_bind; [apply checkFile_runs | cbv beta].
  destruct (ActivityFile fs fileArg); [apply runs_to_ret |].
  eapply runs_to_bind; [apply checkListFile_runs | cbv beta].
  destruct (ManifestFile fs wildcard); [apply runs_to_ret |].
  destruct (isdir fs wildcard); apply runs_to_ret.
Qed.

Lemma add_child_runs (dirname : string) (ls : lists) (child : string) :
  runs_to (add_child fs dirname ls child) (add_child_value fs dirname ls child).
Proof.
  unfold add_child, add_child_value.
  eapply runs_to_bind; [apply checkFile_runs | cbv beta].
  destruct (ActivityFile fs _); apply runs_to_ret.
Qed.

Lemma add_row_runs (workouts : list workoutTuple) (row : csvRow) :
  runs_to (add_row fs workouts row) (add_row_value fs workouts row).
Proof.
  unfold add_row, add_row_value.
  eapply runs_to_bind; [apply checkFile_runs | cbv beta].
  destruct (ActivityFile fs _); apply runs_to_ret.
Qed.

(** The inner loop over the expansions of one argument. *)
Lemma fold_sort_wildcard (fileArg : string) (wildcards : list string) :
  forall ls,
    fold_left (sort_wildcard_value fs fileArg) wildcards ls =
    if ActivityFile fs fileArg then
      mkLists (filenames ls ++ repeat fileArg (List.length wildcards))
              (dirnames ls) (listfiles ls)
    else
      mkLists (filenames ls)
              (dirnames ls ++
               map (abspath fs)
                   (filter (fun w => negb (ManifestFile fs w) && isdir fs w)
                           wildcards))
              (listfiles ls ++ filter (ManifestFile fs) wildcards).
Proof.
  induction wildcards as [|w ws IH]; intros ls; simpl.
  - rewrite !app_nil_r. destruct ls, (ActivityFile fs fileArg); reflexivity.
  - rewrite IH. unfold sort_wildcard_value.
    destruct (ActivityFile fs fileArg); simpl.
    + rewrite <- app_assoc. reflexivity.
    + destruct (ManifestFile fs w); simpl.
      * rewrite <- app_assoc. reflexivity.
      * destruct (isdir fs w); simpl; [rewrite <- app_assoc |]; reflexivity.
Qed.

Lemma fold_sort_arg (fileArg : string) (ls : lists) :
  fold_left (sort_wildcard_value fs fileArg) (glob fs fileArg) ls =
  mkLists (filenames ls ++ arg_filenames fs fileArg)
          (dirnames ls ++ arg_dirnames fs fileArg)
          (listfiles ls ++ arg_listfiles fs fileArg).
Proof.
  rewrite fold_sort_wildcard.
  unfold arg_filenames, arg_dirnames, arg_listfiles.
  destruct (ActivityFile fs fileArg); rewrite ?app_nil_r; reflexivity.
Qed.

Lemma fold_sort_paths (paths : list string) :
  forall ls,
    fold_left (fun ls fileArg =>
                 fold_left (sort_wildcard_value fs fileArg) (glob fs fileArg) ls)
              paths ls =
    mkLists (filenames ls ++ flat_map (arg_filenames fs) paths)
            (dirnames ls ++ flat_map (arg_dirnames fs) paths)
            (listfiles ls ++ flat_map (arg_listfiles fs) paths).
Proof.
  induction paths as [|a paths IH]; intros ls; simpl.
  - rewrite !app_nil_r. destruct ls; reflexivity.
  - rewrite IH, fold_sort_arg. simpl. rewrite <- !app_assoc. reflexivity.
Qed.

Lemma sort_paths_runs (paths : list string) :
  runs_to (sort_paths fs paths)
          (mkLists (flat_map (arg_filenames fs) paths)
                   (flat_map (arg_dirnames fs) paths)
                   (flat_map (arg_listfiles fs) paths)).
Proof.
  pose proof (fold_sort_paths paths (mkLists [] [] [])) as E. simpl in E.
  rewrite <- E. unfold sort_paths.
  apply runs_to_foldM with
    (g := fun ls fileArg =>
            fold_left (sort_wildcard_value fs fileArg) (glob fs fileArg) ls).
  intros ls fileArg. apply runs_to_foldM. apply sort_wildcard_runs.
Qed.

Lemma fold_add_child (dirname : string) (children : list string) :
  forall ls,
    fold_left (add_child_value fs dirname) children ls =
    mkLists (filenames ls ++
             filter (ActivityFile fs) (map (Py.join dirname) children))
            (dirnames ls) (listfiles ls).
Proof.
  induction children as [|c cs IH]; intros ls; simpl.
  - rewrite app_nil_r. destruct ls; reflexivity.
  - rewrite IH. unfold add_child_value.
    destruct (ActivityFile fs (Py.join dirname c)); simpl;
      [rewrite <- app_assoc |]; reflexivity.
Qed.

Lemma fold_add_dirs (dirs : list string) :
  forall ls,
    fold_left (fun ls dirname =>
                 fold_left (add_child_value fs dirname) (listdir fs dirname) ls)
              dirs ls =
    mkLists (filenames ls ++ flat_map (dir_filenames fs) dirs)
            (dirnames ls) (listfiles ls).
Proof.
  induction dirs as [|d ds IH]; intros ls; simpl.
  - rewrite app_nil_r. destruct ls; reflexivity.
  - rewrite IH, fold_add_child. simpl. rewrite <- app_assoc. reflexivity.
Qed.

Lemma add_from_dirs_runs (ls : lists) :
  runs_to (add_from_dirs fs ls)
          (mkLists (filenames ls ++ flat_map (dir_filenames fs) (dirnames ls))
                   (dirnames ls) (listfiles ls)).
Proof.
  rewrite <- fold_add_dirs. unfold add_from_dirs.
  apply runs_to_foldM with
    (g := fun ls dirname =>
            fold_left (add_child_value fs dirname) (listdir fs dirname) ls).
  intros ls' dirname. apply runs_to_foldM. apply add_child_runs.
Qed.

Lemma fold_add_row (rows : list csvRow) :
  forall workouts,
    fold_left (add_row_value fs) rows workouts =
    workouts ++
    map workout_of_row
        (filter (fun row => ActivityFile fs (row_filename row)) rows).
Proof.
  induction rows as [|r rs IH]; intros workouts; simpl.
  - rewrite app_nil_r. reflexivity.
  - rewrite IH. unfold add_row_value.
    destruct (ActivityFile fs (row_filename r)); simpl;
      [rewrite <- app_assoc |]; reflexivity.
Qed.

Lemma fold_add_listfiles (listfiles : list string) :
  forall workouts,
    fold_left (fun workouts listfile =>
                 fold_left (add_row_value fs) (DictReader fs listfile) workouts)
              listfiles workouts =
    workouts ++ flat_map (listfile_workouts fs) listfiles.
Proof.
  induction listfiles as [|l lfs IH]; intros workouts; simpl.
  - rewrite app_nil_r. reflexivity.
  - rewrite IH, fold_add_row. rewrite <- app_assoc. reflexivity.
Qed.

Lemma add_from_listfiles_runs (workouts : list workoutTuple)
  (listfiles : list string) :
  runs_to (add_from_listfiles fs workouts listfiles)
          (workouts ++ flat_map (listfile_workouts fs) listfiles).
Proof.
  rewrite <- fold_add_listfiles. unfold add_from_listfiles.
  apply runs_to_foldM with
    (g := fun workouts listfile =>
            fold_left (add_row_value fs) (DictReader fs listfile) workouts).
  intros ws listfile. apply runs_to_foldM. apply add_row_runs.
Qed.

Lemma fold_build_workouts (activityName activityType : option string)
  (filenames : list string) :
  forall workouts,
    fold_left (fun workouts filename =>
                 workouts ++ [mkWorkout filename activityName activityType])
              filenames workouts =
    workouts ++
    map (fun filename => mkWorkout filename activityName activityType) filenames.
Proof.
  induction filenames as [|f fns IH]; intros workouts; simpl.
  - rewrite app_nil_r. reflexivity.
  - rewrite IH, <- app_assoc. reflexivity.
Qed.

Lemma build_workouts_map (filenames : list string)
  (activityName activityType : option string) :
  build_workouts filenames activityName activityType =
  map (fun filename => mkWorkout filename activityName activityType) filenames.
Proof. unfold build_workouts. apply fold_build_workouts. Qed.

Lemma check_activityName_runs (filenames : list string)
  (activityName : option string) :
  runs_to (check_activityName filenames activityName)
          (effective_name filenames activityName).
Proof.
  unfold check_activityName, effective_name, warning.
  destruct (_ && _); repeat run_step.
Qed.

Lemma collect_runs (paths : list string) :
  runs_to (collect fs paths)
          (mkLists (flat_map (arg_filenames fs) paths ++
                    flat_map (dir_filenames fs)
                             (flat_map (arg_dirnames fs) paths))
                   (flat_map (arg_dirnames fs) paths)
                   (flat_map (arg_listfiles fs) paths)).
Proof.
  unfold collect. eapply runs_to_bind; [apply sort_paths_runs |].
  apply (add_from_dirs_runs (mkLists _ _ _)).
Qed.

(** The list of workouts, from the three lists. *)
Lemma make_workouts_runs (self : gupload_self) (ls : lists) :
  outcome (collect fs (paths self)) = Ok ls ->
  runs_to (make_workouts fs self)
          (map (fun filename =>
                  mkWorkout filename
                            (effective_name (filenames ls) (activityName self))
                            (activityType self))
               (filenames ls)
           ++ flat_map (listfile_workouts fs) (listfiles ls)).
Proof.
  intros Hls. pose proof (collect_runs (paths self)) as Hc.
  assert (Hc' : runs_to (collect fs (paths self)) ls).
  { destruct Hc as [Ho Hl]. split; [exact Hls | exact Hl]. }
  unfold make_workouts.
  eapply runs_to_bind; [exact Hc' | cbv beta].
  eapply runs_to_bind; [apply check_activityName_runs | cbv beta].
  rewrite build_workouts_map. apply add_from_listfiles_runs.
Qed.

(** C6: for each expansion of an argument the branches are tried in the
    order fitness file, list file, directory; the fitness-file check is made
    on the argument as given and appends the argument itself, once per
    expansion, while the list-file and directory checks are made on the
    expansion; an argument that expands to nothing adds nothing to the run
    and raises nothing.  [ActivityFile] and [ManifestFile] are the values
    [checkFile] and [checkListFile] return. *)
Theorem sort_paths_branch_order :
  (forall fileArg ls wildcard,
     outcome (sort_wildcard fs fileArg ls wildcard) =
     Ok (if ActivityFile fs fileArg then
           mkLists (filenames ls ++ [fileArg]) (dirnames ls) (listfiles ls)
         else if ManifestFile fs wildcard then
           mkLists (filenames ls) (dirnames ls) (listfiles ls ++ [wildcard])
         else if isdir fs wildcard then
           mkLists (filenames ls) (dirnames ls ++ [abspath fs wildcard])
                   (listfiles ls)
         else ls)) /\
  (forall paths,
     outcome (sort_paths fs paths) =
     Ok (mkLists
           (flat_map (fun fileArg =>
                        if ActivityFile fs fileArg
                        then repeat fileArg (List.length (glob fs fileArg))
                        else []) paths)
           (flat_map (fun fileArg =>
                        if ActivityFile fs fileArg then []
                        else map (abspath fs)
                                 (filter (fun w => negb (ManifestFile fs w)
                                                   && isdir fs w)
                                         (glob fs fileArg))) paths)
           (flat_map (fun fileArg =>
                        if ActivityFile fs fileArg then []
                        else filter (ManifestFile fs) (glob fs fileArg))
                     paths))) /\
  (forall before fileArg after,
     glob fs fileArg = [] ->
     sort_paths fs (before ++ fileArg :: after) = sort_paths fs (before ++ after)).
Proof.
  split; [| split].
  - intros fileArg ls wildcard. apply sort_wildcard_runs.
  - intros paths. apply sort_paths_runs.
  - intros before fileArg after Hglob. unfold sort_paths.
    rewrite !foldM_app. apply bind_ext. intros ls. cbn [foldM].
    rewrite Hglob. cbn [foldM]. rewrite bind_ret_l. reflexivity.
Qed.

(** C8: the loop over the directories appends to [filenames], for each
    directory in turn, the joined paths of those entries of [os.listdir]
    that pass [checkFile], in listing order; nothing below an entry is
    listed; [dirnames] and [listfiles] are left as they were, and an entry
    with the extension [.csv] fails [checkFile] and changes none of the
    lists. *)
Theorem add_from_dirs_direct_children (ls : lists) :
  outcome (add_from_dirs fs ls) =
  Ok (mkLists
        (filenames ls ++
         flat_map (fun dirname =>
                     filter (ActivityFile fs)
                            (map (Py.join dirname) (listdir fs dirname)))
                  (dirnames ls))
        (dirnames ls) (listfiles ls)) /\
  (forall dirname ls' child,
     extension (Py.join dirname child) = ".csv" ->
     ActivityFile fs (Py.join dirname child) = false /\
     outcome (add_child fs dirname ls' child) = Ok ls').
Proof.
  split; [apply add_from_dirs_runs |].
  intros dirname ls' child Hext.
  assert (Hno : ActivityFile fs (Py.join dirname child) = false).
  { unfold ActivityFile. rewrite Hext. apply andb_false_r. }
  split; [exact Hno |].
  rewrite (proj1 (add_child_runs dirname ls' child)).
  unfold add_child_value. rewrite Hno. reflexivity.
Qed.

(** C9: a row of a list file whose file fails [checkFile] adds no workout,
    a row that passes adds one workout with the row's filename, name and
    type; the workouts of the rows come after the workouts of all of
    [filenames], row by row, list file by list file, and the list files are
    in the order of the arguments they come from. *)
Theorem listfile_rows_after_filenames (self : gupload_self) (ls : lists) :
  outcome (collect fs (paths self)) = Ok ls ->
  (forall workouts row,
     outcome (add_row fs workouts row) =
     Ok (if ActivityFile fs (row_filename row)
         then workouts ++
              [mkWorkout (row_filename row) (row_name row) (row_type row)]
         else workouts)) /\
  outcome (make_workouts fs self) =
  Ok (map (fun filename =>
             mkWorkout filename
                       (effective_name (filenames ls) (activityName self))
                       (activityType self))
          (filenames ls) ++
      flat_map (fun listfile =>
                  map (fun row => mkWorkout (row_filename row) (row_name row)
                                            (row_type row))
                      (filter (fun row => ActivityFile fs (row_filename row))
                              (DictReader fs listfile)))
               (listfiles ls)) /\
  listfiles ls =
  flat_map (fun fileArg =>
              if ActivityFile fs fileArg then []
              else filter (ManifestFile fs) (glob fs fileArg))
           (paths self).
Proof.
  intros Hls. split; [| split].
  - intros workouts row. apply add_row_runs.
  - apply (make_workouts_runs self ls Hls).
  - rewrite (proj1 (collect_runs (paths self))) in Hls.
    injection Hls as <-. reflexivity.
Qed.

(** C10: whatever the number of workouts, every workout built from
    [filenames] has the type given on the command line, and the workouts
    of the list files have the type of their row. *)
Theorem activityType_kept_for_all_filenames (self : gupload_self) (ls : lists) :
  outcome (collect fs (paths self)) = Ok ls ->
  exists fromFiles fromRows,
    outcome (make_workouts fs self) = Ok (fromFiles ++ fromRows) /\
    map filename fromFiles = filenames ls /\
    map type fromFiles =
    repeat (activityType self) (List.length (filenames ls)) /\
    fromRows =
    flat_map (fun listfile =>
                map (fun row => mkWorkout (row_filename row) (row_name row)
                                          (row_type row))
                    (filter (fun row => ActivityFile fs (row_filename row))
                            (DictReader fs listfile)))
             (listfiles ls).
Proof.
  intros Hls. eexists. eexists.
  split; [apply (make_workouts_runs self ls Hls) |].
  split; [| split; [| reflexivity]].
  - rewrite map_map. simpl. apply map_id.
  - rewrite map_map. simpl. induction (filenames ls) as [|f l IH]; simpl;
      [| rewrite IH]; reflexivity.
Qed.

Lemma make_workouts_trace (self : gupload_self) (ls : lists) :
  outcome (collect fs (paths self)) = Ok ls ->
  trace (make_workouts fs self) =
  trace (collect fs (paths self)) ++
  trace (check_activityName (filenames ls) (activityName self)) ++
  trace (add_from_listfiles fs
           (build_workouts (filenames ls)
              (effective_name (filenames ls) (activityName self))
              (activityType self))
           (listfiles ls)).
Proof.
  intros Hls. unfold make_workouts.
  rewrite (bind_Ok _ _ ls Hls). cbn [trace snd].
  rewrite (bind_Ok _ _ _ (proj1 (check_activityName_runs _ _))).
  reflexivity.
Qed.

Lemma resolve_Ok (self : gupload_self) (workouts : list workoutTuple) :
  outcome (resolve fs self) = Ok workouts ->
  outcome (make_workouts fs self) = Ok workouts /\ workouts <> [].
Proof.
  unfold resolve. destruct (make_workouts fs self) as [[ws|e] t]; simpl.
  - destruct ws as [|w ws]; simpl; [discriminate |].
    intros H. injection H as <-. split; [reflexivity | discriminate].
  - discriminate.
Qed.

(** C4: when a name is given on the command line and [filenames] does not
    hold exactly one file, the name is replaced by [None] and the warning is
    logged before any workout is built, so that every workout built from
    [filenames] has no name and the list of workouts is the one a run
    without the [-a] option builds; when [filenames] holds exactly one
    file, the name is kept and is the name of that file's workout. *)
Theorem activityName_kept_for_one_filename_only
  (self : gupload_self) (ls : lists) :
  outcome (collect fs (paths self)) = Ok ls ->
  (Py.truthy (activityName self) = true ->
   List.length (filenames ls) <> 1 ->
   check_activityName (filenames ls) (activityName self)
   = (Ok None, [ignoring_name]) /\
   trace (make_workouts fs self) =
   trace (collect fs (paths self)) ++
   ignoring_name ::
   trace (add_from_listfiles fs
            (build_workouts (filenames ls) None (activityType self))
            (listfiles ls)) /\
   outcome (make_workouts fs self) =
   Ok (map (fun filename => mkWorkout filename None (activityType self))
           (filenames ls) ++
       flat_map (listfile_workouts fs) (listfiles ls)) /\
   outcome (make_workouts fs self) =
   outcome (make_workouts fs (without_name self))) /\
  (List.length (filenames ls) = 1 ->
   check_activityName (filenames ls) (activityName self)
   = (Ok (activityName self), []) /\
   exists filename,
     filenames ls = [filename] /\
     outcome (make_workouts fs self) =
     Ok (mkWorkout filename (activityName self) (activityType self) ::
         flat_map (listfile_workouts fs) (listfiles ls))).
Proof.
  intros Hls. split.
  - intros Hname Hlen.
    assert (Hc : check_activityName (filenames ls) (activityName self)
                 = (Ok None, [ignoring_name])).
    { unfold check_activityName.
      apply Nat.eqb_neq in Hlen. rewrite Hlen, Hname. reflexivity. }
    assert (He : effective_name (filenames ls) (activityName self) = None).
    { pose proof (proj1 (check_activityName_runs (filenames ls)
                           (activityName self))) as Hv.
      rewrite Hc in Hv. simpl in Hv. congruence. }
    split; [exact Hc |]. split; [| split].
    + rewrite (make_workouts_trace self ls Hls), Hc, He. reflexivity.
    + rewrite (proj1 (make_workouts_runs self ls Hls)), He. reflexivity.
    + rewrite (proj1 (make_workouts_runs self ls Hls)), He.
      rewrite (proj1 (make_workouts_runs (without_name self) ls Hls)).
      unfold effective_name. simpl. rewrite andb_false_r. reflexivity.
  - intros Hlen.
    assert (Hc : check_activityName (filenames ls) (activityName self)
                 = (Ok (activityName self), [])).
    { unfold check_activityName. rewrite Hlen. reflexivity. }
    split; [exact Hc |].
    destruct (filenames ls) as [|f [|f' l]] eqn:Hf; try discriminate.
    exists f. split; [reflexivity |].
    rewrite (proj1 (make_workouts_runs self ls Hls)), Hf.
    unfold effective_name. reflexivity.
Qed.

(** C5, as the code has it: a workout of the resolved batch has a name only
    if it comes from a row of a list file, or it is built from [filenames],
    has the name given on the command line, and [filenames] holds exactly
    one file, however many workouts the list files add. *)
Theorem named_only_with_one_filename (self : gupload_self) (ls : lists)
  (workouts : list workoutTuple) (i : nat) (w : workoutTuple) :
  outcome (collect fs (paths self)) = Ok ls ->
  outcome (resolve fs self) = Ok workouts ->
  nth_error workouts i = Some w ->
  Py.truthy (name w) = true ->
  (List.length (filenames ls) <= i /\
   nth_error (flat_map (listfile_workouts fs) (listfiles ls))
             (i - List.length (filenames ls)) = Some w) \/
  (i < List.length (filenames ls) /\
   name w = activityName self /\
   List.length (filenames ls) = 1).
Proof.
  intros Hls Hres Hnth Hname.
  apply resolve_Ok in Hres. destruct Hres as [Hres _].
  rewrite (proj1 (make_workouts_runs self ls Hls)) in Hres.
  injection Hres as <-.
  destruct (Nat.lt_ge_cases i (List.length (filenames ls))) as [Hlt | Hge].
  - right. rewrite nth_error_app1 in Hnth by (rewrite length_map; exact Hlt).
    rewrite nth_error_map in Hnth.
    destruct (nth_error (filenames ls) i) as [f|]; [| discriminate].
    simpl in Hnth. injection Hnth as <-. simpl in Hname |- *.
    unfold effective_name in *.
    destruct (List.length (filenames ls) =? 1)%nat eqn:Hone; simpl in *.
    + apply Nat.eqb_eq in Hone. auto.
    + destruct (Py.truthy (activityName self)) eqn:Ht; simpl in Hname;
        congruence.
  - left. split; [exact Hge |].
    rewrite nth_error_app2 in Hnth by (rewrite length_map; exact Hge).
    rewrite length_map in Hnth. exact Hnth.
Qed.

End Loops.

(** C5 as stated fails: with one fitness file and a list file on the
    command line, the first workout has the name given with [-a] in a batch
    of two workouts. *)
Lemma named_in_batch_of_two :
  ~ named_only_when_alone Demo.fs
      (Demo.self0 ["ride.fit"; "batch.csv"] (Some "X") (Some "running")).
Proof.
  intros H.
  specialize (H (mkLists ["ride.fit"] [] ["batch.csv"])
                [mkWorkout "ride.fit" (Some "X") (Some "running");
                 mkWorkout "a.tcx" (Some "Lake Loop") (Some "cycling")]
                0
                (mkWorkout "ride.fit" (Some "X") (Some "running"))
                eq_refl eq_refl eq_refl eq_refl).
  simpl in H. destruct H as [H | [_ H]]; [lia | discriminate].
Qed.

(** ** The upload loop *)

Section UploadFacts.

Variable U : Uploader.

Lemma calls_of_app (t1 t2 : list event) :
  calls_of (t1 ++ t2) = calls_of t1 ++ calls_of t2.
Proof. apply flat_map_app. Qed.

Lemma printed_of_app (t1 t2 : list event) :
  printed_of (t1 ++ t2) = printed_of t1 ++ printed_of t2.
Proof. apply flat_map_app. Qed.

Lemma logs_no_calls (t : list event) :
  Forall is_log t -> calls_of t = [] /\ printed_of t = [].
Proof.
  induction 1 as [|e t He _ [IHc IHp]]; [split; reflexivity |].
  destruct e; simpl in He; try contradiction. simpl. auto.
Qed.

(** One turn of the loop: it returns, prints one line for its workout, and
    calls no login. *)
Lemma upload_workout_line (g : session U) (workout : workoutTuple) :
  exists g' line,
    outcome (upload_workout U g workout) = Ok g' /\
    printed_of (trace (upload_workout U g workout)) = [line] /\
    js_file line = filename workout /\
    js_status line = fst (fst (upload_file U g (filename workout))) /\
    js_id line = snd (fst (upload_file U g (filename workout))) /\
    (js_status line <> "SUCCESS" ->
     js_name line = "N/A" /\ js_type line = "N/A") /\
    (forall u p,
       ~ In (Login u p) (calls_of (trace (upload_workout U g workout)))) /\
    (read_only U -> g' = g).
Proof.
  remember (upload_workout U g workout) as m eqn:E.
  unfold upload_workout, g_upload_file, g_set_workout_name,
    g_set_activity_type in E.
  destruct (upload_file U g (filename workout)) as [[status id_msg] g1] eqn:Hu.
  cbv [bind ret emit app] in E.
  destruct (status =? "SUCCESS")%string eqn:Hs;
    destruct (name workout) as [[|c n]|];
    destruct (type workout) as [[|c' ty]|];
    cbv beta iota in E;
    repeat match type of E with
           | context [set_workout_name U ?a ?b ?c] =>
               let H := fresh "Hn" in
               destruct (set_workout_name U a b c) as [? ?] eqn:H;
               cbv beta iota in E
           | context [set_activity_type U ?a ?b ?c] =>
               let H := fresh "Ht" in
               destruct (set_activity_type U a b c) as [? ?] eqn:H;
               cbv beta iota in E
           end.
  all: subst m; cbn [outcome trace fst snd].
  all: eexists; eexists.
  all: split; [reflexivity |]; split; [reflexivity |].
  all: cbn [js_file js_status js_id js_name js_type].
  all: repeat (split; [reflexivity |]).
  all: split; [| split].
  all: try (intros Hne;
            first [ split; reflexivity
                  | apply String.eqb_eq in Hs; contradiction ]).
  all: try (intros u p; simpl; intuition discriminate).
  all: intros [H1 [H2 H3]];
    repeat match goal with
           | H : _ = (_, ?x) |- _ =>
               apply (f_equal snd) in H; cbn [snd] in H;
               rewrite ?H1, ?H2, ?H3 in H; subst x
           end; reflexivity.
Qed.

Lemma upload_all_cons (g : session U) (workout : workoutTuple)
  (workouts : list workoutTuple) :
  upload_all U g (workout :: workouts) =
  bind (upload_workout U g workout) (fun g' => upload_all U g' workouts).
Proof. reflexivity. Qed.

(** The loop returns, prints the lines of its workouts in order, each with
    [N/A] for name and type unless the upload succeeded, and calls no
    login. *)
Lemma upload_all_lines (workouts : list workoutTuple) :
  forall g,
    exists g',
      outcome (upload_all U g workouts) = Ok g' /\
      map js_file (printed_of (trace (upload_all U g workouts))) =
      map filename workouts /\
      Forall (fun line => js_status line <> "SUCCESS" ->
                          js_name line = "N/A" /\ js_type line = "N/A")
             (printed_of (trace (upload_all U g workouts))) /\
      (forall u p,
         ~ In (Login u p) (calls_of (trace (upload_all U g workouts)))) /\
      (read_only U -> g' = g).
Proof.
  induction workouts as [|w ws IH]; intros g.
  - exists g. simpl. repeat split; auto.
  - destruct (upload_workout_line g w)
      as (g1 & line & Ho & Hp & Hf & _ & _ & Hna & Hlog & Hro).
    destruct (IH g1) as (g2 & Ho2 & Hp2 & Hna2 & Hlog2 & Hro2).
    exists g2. rewrite upload_all_cons, (bind_Ok _ _ g1 Ho).
    cbn [outcome trace fst snd].
    rewrite printed_of_app, calls_of_app, Hp. simpl.
    repeat split.
    + exact Ho2.
    + rewrite Hf, Hp2. reflexivity.
    + constructor; assumption.
    + intros u p Hin. apply in_app_or in Hin.
      destruct Hin as [Hin | Hin]; [eapply Hlog | eapply Hlog2]; exact Hin.
    + intros R. rewrite (Hro2 R). apply Hro, R.
Qed.

Lemma upload_all_app (g : session U) (before after : list workoutTuple) :
  exists g1,
    outcome (upload_all U g before) = Ok g1 /\
    (read_only U -> g1 = g) /\
    outcome (upload_all U g (before ++ after)) = outcome (upload_all U g1 after) /\
    trace (upload_all U g (before ++ after)) =
    trace (upload_all U g before) ++ trace (upload_all U g1 after).
Proof.
  destruct (upload_all_lines before g) as (g1 & Ho & _ & _ & _ & Hro).
  exists g1. unfold upload_all in *. rewrite foldM_app, (bind_Ok _ _ g1 Ho).
  auto.
Qed.

(** C1: whatever the session answers, the loop does not raise; it prints
    exactly one line per workout, in the order of the workouts; a line whose
    upload status is not [SUCCESS] has [N/A] for name and for type; and the
    lines of the other workouts are those the loop prints for them from the
    session state they find: nothing but the session object is carried from
    one turn to the next.  For a session whose methods leave its state
    unchanged, the lines of the other workouts are the ones of a run without
    that workout. *)
Theorem upload_all_one_line_per_workout (g : session U)
  (workouts : list workoutTuple) :
  (exists g', outcome (upload_all U g workouts) = Ok g') /\
  List.length (printed_of (trace (upload_all U g workouts))) =
  List.length workouts /\
  map js_file (printed_of (trace (upload_all U g workouts))) =
  map filename workouts /\
  Forall (fun line => js_status line <> "SUCCESS" ->
                      js_name line = "N/A" /\ js_type line = "N/A")
         (printed_of (trace (upload_all U g workouts))) /\
  (forall before workout after,
     workouts = before ++ workout :: after ->
     exists g1 g2 line,
       outcome (upload_all U g before) = Ok g1 /\
       outcome (upload_workout U g1 workout) = Ok g2 /\
       printed_of (trace (upload_workout U g1 workout)) = [line] /\
       js_file line = filename workout /\
       js_status line = fst (fst (upload_file U g1 (filename workout))) /\
       printed_of (trace (upload_all U g workouts)) =
       printed_of (trace (upload_all U g before)) ++
       line :: printed_of (trace (upload_all U g2 after)) /\
       (read_only U ->
        printed_of (trace (upload_all U g workouts)) =
        printed_of (trace (upload_all U g before)) ++
        line :: printed_of (trace (upload_all U g after)) /\
        printed_of (trace (upload_all U g (before ++ after))) =
        printed_of (trace (upload_all U g before)) ++
        printed_of (trace (upload_all U g after)))).
Proof.
  destruct (upload_all_lines workouts g) as (g' & Ho & Hf & Hna & _ & _).
  split; [exists g'; exact Ho |].
  split; [| split; [exact Hf | split; [exact Hna |]]].
  - rewrite <- (length_map js_file), Hf. apply length_map.
  - intros before workout after ->.
    destruct (upload_all_app g before (workout :: after))
      as (g1 & Ho1 & Hro1 & _ & Ht1).
    destruct (upload_workout_line g1 workout)
      as (g2 & line & Ho2 & Hp2 & Hfile & Hstat & _ & _ & _ & Hro2).
    exists g1, g2, line.
    assert (Hall : printed_of (trace (upload_all U g (before ++ workout :: after)))
                   = printed_of (trace (upload_all U g before)) ++
                     line :: printed_of (trace (upload_all U g2 after))).
    { rewrite Ht1, printed_of_app, upload_all_cons, (bind_Ok _ _ g2 Ho2).
      cbn [trace snd]. rewrite printed_of_app, Hp2. reflexivity. }
    repeat (split; [assumption |]).
    intros R. rewrite (Hro2 R), (Hro1 R) in Hall. split; [exact Hall |].
    destruct (upload_all_app g before after) as (g3 & _ & Hro3 & _ & Ht3).
    rewrite Ht3, printed_of_app, (Hro3 R). reflexivity.
Qed.

End UploadFacts.

(** ** The whole method *)

Section Run.

Variable U : Uploader.
Variable fs : FileSystem.

Lemma obscurePassword_nonempty (password : string) :
  password <> EmptyString -> exists o, obscurePassword password = (Ok o, []).
Proof.
  destruct password as [|c0 [|c1 [|c2 r]]]; intros H;
    [contradiction | | |]; eexists; reflexivity.
Qed.

(** With a password to obscure, the run is the resolution followed by the
    login and the uploads, after the two debug lines. *)
Lemma gupload_run (self : gupload_self) (o : string) :
  obscurePassword (password self) = (Ok o, []) ->
  gupload U fs self =
  (outcome (bind (resolve fs self) (login_and_upload U self)),
   Log DEBUG ("Username: " ++ username self)%string ::
   Log DEBUG ("Password: " ++ o)%string ::
   trace (bind (resolve fs self) (login_and_upload U self))).
Proof.
  intros Ho. unfold gupload. rewrite Ho. unfold debug, emit.
  destruct (bind (resolve fs self) (login_and_upload U self)) as [r t].
  reflexivity.
Qed.

Lemma gupload_empty_password (self : gupload_self) :
  password self = EmptyString ->
  gupload U fs self =
  (Raise (IndexError "string index out of range"),
   [Log DEBUG ("Username: " ++ username self)%string]).
Proof. intros Hp. unfold gupload. rewrite Hp. reflexivity. Qed.

Lemma make_workouts_logs (self : gupload_self) :
  Forall is_log (trace (make_workouts fs self)).
Proof.
  apply (make_workouts_runs fs self _ (proj1 (collect_runs fs (paths self)))).
Qed.

Lemma resolve_empty (self : gupload_self) :
  outcome (make_workouts fs self) = Ok [] ->
  resolve fs self =
  (Raise (IOError "No valid files."),
   trace (make_workouts fs self) ++ [Log CRITICAL "No valid Files."]).
Proof.
  intros H. unfold resolve. rewrite (bind_Ok _ _ _ H). reflexivity.
Qed.

Lemma resolve_nonempty (self : gupload_self) (workouts : list workoutTuple) :
  outcome (make_workouts fs self) = Ok workouts ->
  workouts <> [] ->
  resolve fs self = (Ok workouts, trace (make_workouts fs self)).
Proof.
  intros H Hne. unfold resolve. rewrite (bind_Ok _ _ _ H).
  destruct workouts as [|w ws]; [contradiction |].
  simpl. rewrite app_nil_r. reflexivity.
Qed.

Lemma login_and_upload_run (self : gupload_self)
  (workouts : list workoutTuple) :
  let answer := login U (UploadGarmin U (logLevel self))
                      (username self) (password self) in
  login_and_upload U self workouts =
  if fst answer then
    (Ok tt,
     Call (Login (username self) (password self)) ::
     Log INFO "Login Successful." ::
     trace (upload_all U (snd answer) workouts))
  else
    (Raise (IOError "LOGIN FAILED - please verify your login credentials"),
     [Call (Login (username self) (password self));
      Log CRITICAL "LOGIN FAILED - please verify your login credentials"]).
Proof.
  unfold login_and_upload, g_login.
  destruct (login U (UploadGarmin U (logLevel self)) (username self)
                  (password self)) as [ok g1].
  destruct ok; cbn [fst snd]; [| reflexivity].
  destruct (upload_all_lines U workouts g1) as (g' & Ho & _).
  unfold info, emit. cbn [bind ret app negb].
  rewrite (bind_Ok _ _ g' Ho). cbn [ret outcome trace fst snd].
  rewrite app_nil_r. reflexivity.
Qed.

(** C2: when no workout has been built, the resolution raises the
    [IOError] for no valid files and the run ends there: it has called no
    method of the session, has not even created it, and has printed no
    line.  (On an empty password the run has already ended, with the
    [IndexError] of [obscurePassword], and has called nothing either.) *)
Theorem no_workouts_no_login (self : gupload_self) :
  outcome (make_workouts fs self) = Ok [] ->
  outcome (resolve fs self) = Raise (IOError "No valid files.") /\
  (exists e, outcome (gupload U fs self) = Raise e) /\
  (password self <> EmptyString ->
   outcome (gupload U fs self) = Raise (IOError "No valid files.")) /\
  calls_of (trace (gupload U fs self)) = [] /\
  printed_of (trace (gupload U fs self)) = [].
Proof.
  intros Hempty. pose proof (resolve_empty self Hempty) as Hres.
  split; [rewrite Hres; reflexivity |].
  assert (Hlogs : Forall is_log (trace (resolve fs self))).
  { rewrite Hres. cbn [trace snd]. apply Forall_app. split.
    - apply make_workouts_logs.
    - repeat constructor. }
  destruct (String.string_dec (password self) EmptyString) as [Hp | Hp].
  - rewrite (gupload_empty_password self Hp).
    split; [eexists; reflexivity |].
    split; [intros Hn; contradiction |].
    split; reflexivity.
  - destruct (obscurePassword_nonempty _ Hp) as [o Ho].
    rewrite (gupload_run self o Ho).
    rewrite (bind_Raise _ _ _ (f_equal fst Hres)).
    cbn [outcome trace fst snd].
    destruct (logs_no_calls _ Hlogs) as [Hc Hpr].
    split; [eexists; reflexivity |].
    split; [intros _; reflexivity |].
    split; simpl; assumption.
Qed.

(** C3: the second half of the run, for every list of workouts: the first
    call made to the session is the login, and it is the only login; if it
    answers false the run raises the [IOError] for the failed login, having
    made no other call and printed no line; if it answers true the calls
    that follow are those of the upload loop, which prints the lines of all
    the workouts.  When workouts have been built (and there is a password
    to obscure for the debug line), the calls, the printed lines and the
    outcome of the whole method are those of this second half. *)
Theorem login_once_before_uploads (self : gupload_self)
  (workouts : list workoutTuple) :
  (exists rest,
     calls_of (trace (login_and_upload U self workouts)) =
     Login (username self) (password self) :: rest /\
     (forall u p, ~ In (Login u p) rest) /\
     (fst (login U (UploadGarmin U (logLevel self))
                 (username self) (password self)) = false ->
      outcome (login_and_upload U self workouts) =
      Raise (IOError "LOGIN FAILED - please verify your login credentials") /\
      rest = [] /\
      printed_of (trace (login_and_upload U self workouts)) = []) /\
     (fst (login U (UploadGarmin U (logLevel self))
                 (username self) (password self)) = true ->
      outcome (login_and_upload U self workouts) = Ok tt /\
      rest =
      calls_of (trace (upload_all U
                         (snd (login U (UploadGarmin U (logLevel self))
                                     (username self) (password self)))
                         workouts)) /\
      map js_file (printed_of (trace (login_and_upload U self workouts))) =
      map filename workouts)) /\
  (password self <> EmptyString ->
   outcome (make_workouts fs self) = Ok workouts ->
   workouts <> [] ->
   outcome (gupload U fs self) = outcome (login_and_upload U self workouts) /\
   calls_of (trace (gupload U fs self)) =
   calls_of (trace (login_and_upload U self workouts)) /\
   printed_of (trace (gupload U fs self)) =
   printed_of (trace (login_and_upload U self workouts))).
Proof.
  split.
  - pose proof (login_and_upload_run self workouts) as Hrun.
    cbv zeta in Hrun. rewrite Hrun. clear Hrun.
    destruct (login U (UploadGarmin U (logLevel self)) (username self)
                    (password self)) as [ok g1].
    destruct (upload_all_lines U workouts g1) as (g' & _ & Hf & _ & Hlog & _).
    destruct ok; cbn [fst snd outcome trace].
    + exists (calls_of (trace (upload_all U g1 workouts))).
      split; [reflexivity |].
      split; [exact Hlog | split; [discriminate |]].
      intros _. split; [reflexivity | split; [reflexivity | exact Hf]].
    + exists []. split; [reflexivity |].
      split; [intros u p [] | split; [| discriminate]].
      intros _. split; [reflexivity | split; reflexivity].
  - intros Hp Hws Hne.
    destruct (obscurePassword_nonempty _ Hp) as [o Ho].
    rewrite (gupload_run self o Ho).
    pose proof (resolve_nonempty self workouts Hws Hne) as Hres.
    rewrite (bind_Ok _ _ workouts (f_equal fst Hres)).
    rewrite Hres. cbn [outcome trace fst snd].
    destruct (logs_no_calls _ (make_workouts_logs self)) as [Hc Hpr].
    split; [reflexivity |].
    split; simpl; [rewrite calls_of_app, Hc | rewrite printed_of_app, Hpr];
      reflexivity.
Qed.

End Run.

(** ** The theorems on the small file system *)

Lemma upload_all_one_line_per_workout_witness :
  List.length
    (printed_of (trace (upload_all Demo.server tt
                          [Demo.ride; Demo.run; Demo.lake_loop]))) = 3 /\
  exists g1 g2 line,
    outcome (upload_all Demo.server tt [Demo.ride]) = Ok g1 /\
    outcome (upload_workout Demo.server g1 Demo.run) = Ok g2 /\
    printed_of (trace (upload_workout Demo.server g1 Demo.run)) = [line] /\
    js_status line = "FAIL" /\
    printed_of (trace (upload_all Demo.server tt
                         [Demo.ride; Demo.run; Demo.lake_loop])) =
    printed_of (trace (upload_all Demo.server tt [Demo.ride])) ++
    line :: printed_of (trace (upload_all Demo.server g2 [Demo.lake_loop])).
Proof.
  pose proof (upload_all_one_line_per_workout Demo.server tt
                [Demo.ride; Demo.run; Demo.lake_loop]) as (_ & Hlen & _ & _ & H).
  split; [exact Hlen |].
  destruct (H [Demo.ride] Demo.run [Demo.lake_loop] eq_refl)
    as (g1 & g2 & line & H1 & H2 & H3 & _ & H5 & H6 & _).
  exists g1, g2, line.
  split; [exact H1 | split; [exact H2 | split; [exact H3 |]]].
  split; [| exact H6]. rewrite H5. destruct g1. reflexivity.
Defined.

Lemma no_workouts_no_login_witness :
  outcome (make_workouts Demo.fs Demo.nothing_valid) = Ok [] /\
  outcome (gupload Demo.server Demo.fs Demo.nothing_valid) =
  Raise (IOError "No valid files.") /\
  calls_of (trace (gupload Demo.server Demo.fs Demo.nothing_valid)) = [].
Proof.
  split; [reflexivity |].
  pose proof (no_workouts_no_login Demo.server Demo.fs Demo.nothing_valid
                eq_refl) as (_ & _ & H & Hc & _).
  split; [apply H; discriminate | exact Hc].
Defined.

Lemma login_once_before_uploads_witness :
  (exists rest,
     calls_of (trace (gupload Demo.server Demo.fs Demo.two_files)) =
     Login "user" "secret" :: rest /\
     (forall u p, ~ In (Login u p) rest) /\
     outcome (gupload Demo.server Demo.fs Demo.two_files) = Ok tt) /\
  outcome (gupload Demo.server Demo.fs Demo.refused) =
  Raise (IOError "LOGIN FAILED - please verify your login credentials") /\
  calls_of (trace (gupload Demo.server Demo.fs Demo.refused)) =
  [Login "user" "bad"] /\
  printed_of (trace (gupload Demo.server Demo.fs Demo.refused)) = [].
Proof.
  split.
  - destruct (login_once_before_uploads Demo.server Demo.fs Demo.two_files
                [Demo.ride; Demo.run; Demo.lake_loop])
      as ((rest & Hc & Hl & _ & Hok) & Hwhole).
    destruct Hwhole as (Ho & Hcalls & _);
      [discriminate | reflexivity | discriminate |].
    exists rest. rewrite Ho, Hcalls.
    split; [exact Hc | split; [exact Hl | apply Hok; reflexivity]].
  - destruct (login_once_before_uploads Demo.server Demo.fs Demo.refused
                [mkWorkout "ride.fit" None None])
      as ((rest & Hc & _ & Hfail & _) & Hwhole).
    destruct Hwhole as (Ho & Hcalls & Hprinted);
      [discriminate | reflexivity | discriminate |].
    destruct (Hfail eq_refl) as (Hraise & Hr & Hp).
    rewrite Ho, Hcalls, Hprinted, Hc, Hr.
    split; [exact Hraise | split; [reflexivity | exact Hp]].
Defined.

Lemma activityName_kept_for_one_filename_only_witness :
  (outcome (make_workouts Demo.fs Demo.two_files) =
   Ok [Demo.ride; Demo.run; Demo.lake_loop] /\
   outcome (make_workouts Demo.fs Demo.two_files) =
   outcome (make_workouts Demo.fs (without_name Demo.two_files))) /\
  outcome (make_workouts Demo.fs Demo.one_file) =
  Ok [Demo.named_ride; Demo.lake_loop].
Proof.
  split.
  - destruct (proj1 (activityName_kept_for_one_filename_only Demo.fs
                       Demo.two_files Demo.two_files_lists eq_refl))
      as (_ & _ & Hws & Hsame); [reflexivity | discriminate |].
    split; [exact Hws | exact Hsame].
  - destruct (proj2 (activityName_kept_for_one_filename_only Demo.fs
                       Demo.one_file Demo.one_file_lists eq_refl))
      as (_ & f & Hf & Hws); [reflexivity |].
    injection Hf as <-. exact Hws.
Defined.

Lemma named_only_with_one_filename_witness :
  (1 <= 0 /\
   nth_error (flat_map (listfile_workouts Demo.fs) ["batch.csv"]) (0 - 1) =
   Some Demo.named_ride) \/
  (0 < 1 /\ Some "X" = Some "X" /\ 1 = 1).
Proof.
  exact (named_only_with_one_filename Demo.fs Demo.one_file
           Demo.one_file_lists [Demo.named_ride; Demo.lake_loop] 0
           Demo.named_ride eq_refl eq_refl eq_refl eq_refl).
Defined.

Lemma sort_paths_branch_order_witness :
  sort_paths Demo.fs (["ride.fit"] ++ "absent*" :: ["acts"]) =
  sort_paths Demo.fs (["ride.fit"] ++ ["acts"]) /\
  outcome (sort_paths Demo.fs ["ride.fit"; "*.fit"; "acts"; "*.csv"]) =
  Ok (mkLists ["ride.fit"] ["/home/u/acts"] ["batch.csv"; "more.csv"]).
Proof.
  split.
  - apply (proj2 (proj2 (sort_paths_branch_order Demo.fs))). reflexivity.
  - exact (proj1 (proj2 (sort_paths_branch_order Demo.fs))
             ["ride.fit"; "*.fit"; "acts"; "*.csv"]).
Defined.

Lemma checkFile_checkListFile_classify_witness :
  exists b,
    outcome (checkFile Demo.fs "b.TCX") = Ok b /\
    (b = true <->
     isfile Demo.fs "b.TCX" = true /\
     In (Py.lower (snd (Py.splitext "b.TCX"))) VALID_GARMIN_FILE_EXTENSIONS).
Proof.
  exact (proj1 (checkFile_checkListFile_classify Demo.fs "b.TCX")).
Defined.

Lemma add_from_dirs_direct_children_witness :
  outcome (add_from_dirs Demo.fs (mkLists ["ride.fit"] ["/home/u/acts"] [])) =
  Ok (mkLists ["ride.fit"; "/home/u/acts/x.gpx"] ["/home/u/acts"] []) /\
  ActivityFile Demo.fs (Py.join "/home/u/acts" "list.csv") = false /\
  outcome (add_child Demo.fs "/home/u/acts"
             (mkLists ["ride.fit"] ["/home/u/acts"] []) "list.csv") =
  Ok (mkLists ["ride.fit"] ["/home/u/acts"] []).
Proof.
  pose proof (add_from_dirs_direct_children Demo.fs
                (mkLists ["ride.fit"] ["/home/u/acts"] [])) as [H1 H2].
  split; [exact H1 |].
  apply H2. reflexivity.
Defined.

Lemma listfile_rows_after_filenames_witness :
  outcome (make_workouts Demo.fs Demo.two_files) =
  Ok [Demo.ride; Demo.run; Demo.lake_loop].
Proof.
  exact (proj1 (proj2 (listfile_rows_after_filenames Demo.fs Demo.two_files
                         Demo.two_files_lists eq_refl))).
Defined.

Lemma activityType_kept_for_all_filenames_witness :
  exists fromFiles fromRows,
    outcome (make_workouts Demo.fs Demo.two_files) = Ok (fromFiles ++ fromRows) /\
    map type fromFiles = [Some "running"; Some "running"] /\
    fromRows = [Demo.lake_loop].
Proof.
  destruct (activityType_kept_for_all_filenames Demo.fs Demo.two_files
              Demo.two_files_lists eq_refl)
    as (fromFiles & fromRows & H1 & _ & H3 & H4).
  exists fromFiles, fromRows.
  split; [exact H1 | split; [exact H3 | exact H4]].
Defined.

(** ** More on the resolution *)

Section ResolutionFacts.

Variable fs : FileSystem.

Lemma foldM_trace {A B} (f : B -> A -> M B) (t : A -> list event) :
  (forall b a, exists b', outcome (f b a) = Ok b') ->
  (forall b a, trace (f b a) = t a) ->
  forall l b,
    (exists b', outcome (foldM f b l) = Ok b') /\
    trace (foldM f b l) = flat_map t l.
Proof.
  intros Hok Ht l. induction l as [|a l IH]; intros b; cbn [foldM flat_map].
  - split; [exists b |]; reflexivity.
  - destruct (Hok b a) as [b' Hb]. rewrite (bind_Ok _ _ b' Hb).
    cbn [outcome trace fst snd]. destruct (IH b') as [Ho Htr].
    split; [exact Ho |]. rewrite Ht, Htr. reflexivity.
Qed.

Lemma warnings_of_app (t1 t2 : list event) :
  warnings_of (t1 ++ t2) = warnings_of t1 ++ warnings_of t2.
Proof. apply filter_app. Qed.

Lemma warnings_of_flat_map {A} (t : A -> list event) (l : list A) :
  warnings_of (flat_map t l) = flat_map (fun a => warnings_of (t a)) l.
Proof.
  induction l as [|a l IH]; simpl; [reflexivity |].
  rewrite warnings_of_app, IH. reflexivity.
Qed.

Lemma flat_map_ext_eq {A B} (f g : A -> list B) (l : list A) :
  (forall a, f a = g a) -> flat_map f l = flat_map g l.
Proof. intros E. apply flat_map_ext. exact E. Qed.

Lemma checkFile_warnings (p : string) :
  warnings_of (trace (checkFile fs p)) = refusal fs p.
Proof.
  unfold checkFile, refusal, ActivityFile, debug, warning, emit, extension.
  destruct (isfile fs p); [destruct (Py.str_in _ _) |]; reflexivity.
Qed.

Lemma checkListFile_warnings (p : string) :
  warnings_of (trace (checkListFile fs p)) = [].
Proof.
  unfold checkListFile, info, emit. destruct (_ && _); reflexivity.
Qed.

Lemma sort_wildcard_trace (fileArg : string) (ls : lists) (wildcard : string) :
  trace (sort_wildcard fs fileArg ls wildcard) =
  trace (checkFile fs fileArg) ++
  (if ActivityFile fs fileArg then [] else trace (checkListFile fs wildcard)).
Proof.
  unfold sort_wildcard.
  rewrite (bind_Ok _ _ _ (proj1 (checkFile_runs fs fileArg))).
  cbn [trace snd]. f_equal.
  destruct (ActivityFile fs fileArg); [reflexivity |].
  rewrite (bind_Ok _ _ _ (proj1 (checkListFile_runs fs wildcard))).
  cbn [trace snd].
  destruct (ManifestFile fs wildcard); [| destruct (isdir fs wildcard)];
    apply app_nil_r.
Qed.

Lemma add_child_trace (dirname : string) (ls : lists) (child : string) :
  trace (add_child fs dirname ls child) =
  trace (checkFile fs (Py.join dirname child)).
Proof.
  unfold add_child.
  rewrite (bind_Ok _ _ _ (proj1 (checkFile_runs fs _))). cbn [trace snd].
  destruct (ActivityFile fs _); apply app_nil_r.
Qed.

Lemma add_row_trace (workouts : list workoutTuple) (row : csvRow) :
  trace (add_row fs workouts row) = trace (checkFile fs (row_filename row)).
Proof.
  unfold add_row.
  rewrite (bind_Ok _ _ _ (proj1 (checkFile_runs fs _))). cbn [trace snd].
  destruct (ActivityFile fs _); apply app_nil_r.
Qed.

(** The trace of a loop in a loop, when the trace of the body depends on
    the two loop variables only. *)
Lemma nested_loop_trace {A B C} (inner : A -> list B)
  (body : A -> C -> B -> M C) (value : A -> C -> B -> C)
  (t : A -> B -> list event) :
  (forall a c b, runs_to (body a c b) (value a c b)) ->
  (forall a c b, trace (body a c b) = t a b) ->
  forall l c,
    trace (foldM (fun c a => foldM (body a) c (inner a)) c l) =
    flat_map (fun a => flat_map (t a) (inner a)) l.
Proof.
  intros Hrun Ht l c.
  apply (foldM_trace (fun c a => foldM (body a) c (inner a))
                     (fun a => flat_map (t a) (inner a))).
  - intros c' a. eexists.
    apply (runs_to_foldM (body a) (value a)). intros; apply Hrun.
  - intros c' a.
    apply (foldM_trace (body a) (t a)).
    + intros c'' b. eexists. apply Hrun.
    + intros c'' b. apply Ht.
Qed.

(** X1: every child of a searched directory and every row of a list file
    that [checkFile] refuses is reported by exactly one warning, which tells
    whether the file is missing or has another extension; the warnings come
    in the order of the children and rows, and an accepted child or row
    logs no warning. *)
Theorem skipped_children_and_rows_are_warned :
  (forall ls,
     warnings_of (trace (add_from_dirs fs ls)) =
     flat_map (fun dirname =>
                 flat_map (fun child => refusal fs (Py.join dirname child))
                          (listdir fs dirname))
              (dirnames ls)) /\
  (forall workouts listfiles,
     warnings_of (trace (add_from_listfiles fs workouts listfiles)) =
     flat_map (fun listfile =>
                 flat_map (fun row => refusal fs (row_filename row))
                          (DictReader fs listfile))
              listfiles) /\
  (forall p, warnings_of (trace (checkFile fs p)) = refusal fs p) /\
  (forall p, List.length (refusal fs p) =
             if ActivityFile fs p then 0 else 1).
Proof.
  split; [| split; [| split]].
  - intros ls. unfold add_from_dirs.
    rewrite (nested_loop_trace (listdir fs) (add_child fs)
               (add_child_value fs)
               (fun dirname child => trace (checkFile fs (Py.join dirname child))))
      by (intros; first [apply add_child_runs | apply add_child_trace]).
    rewrite warnings_of_flat_map. apply flat_map_ext. intros d.
    rewrite warnings_of_flat_map. apply flat_map_ext. intros c.
    apply checkFile_warnings.
  - intros workouts listfiles. unfold add_from_listfiles.
    rewrite (nested_loop_trace (DictReader fs) (fun _ => add_row fs)
               (fun _ => add_row_value fs)
               (fun _ row => trace (checkFile fs (row_filename row))))
      by (intros; first [apply add_row_runs | apply add_row_trace]).
    rewrite warnings_of_flat_map. apply flat_map_ext. intros l.
    rewrite warnings_of_flat_map. apply flat_map_ext. intros r.
    apply checkFile_warnings.
  - apply checkFile_warnings.
  - intros p. unfold refusal.
    destruct (ActivityFile fs p); [| destruct (isfile fs p)]; reflexivity.
Qed.

(** X2: in the loop over the arguments the warning is about the argument,
    not about its expansion, and is logged once per expansion even when
    the expansion is then taken as a list file or a directory: a list file
    that is processed is first reported as a file with a wrong extension
    that is skipped, and an argument that is not a regular file, such as a
    directory, as a file that does not exist. *)
Theorem arguments_are_warned_per_expansion :
  (forall paths,
     warnings_of (trace (sort_paths fs paths)) =
     flat_map (fun fileArg =>
                 flat_map (fun _ => refusal fs fileArg) (glob fs fileArg))
              paths) /\
  (forall fileArg,
     ManifestFile fs fileArg = true ->
     refusal fs fileArg =
     [Log WARNING ("File '" ++ fileArg
                   ++ "' extension '.csv' is not valid. Skipping file...")]) /\
  (forall fileArg,
     isfile fs fileArg = false ->
     refusal fs fileArg =
     [Log WARNING ("File '" ++ fileArg ++ "' does not exist. Skipping...")]).
Proof.
  split; [| split].
  - intros paths. unfold sort_paths.
    rewrite (nested_loop_trace (glob fs) (sort_wildcard fs)
               (sort_wildcard_value fs)
               (fun fileArg wildcard =>
                  trace (checkFile fs fileArg) ++
                  (if ActivityFile fs fileArg then []
                   else trace (checkListFile fs wildcard))))
      by (intros; first [apply sort_wildcard_runs | apply sort_wildcard_trace]).
    rewrite warnings_of_flat_map. apply flat_map_ext. intros a.
    rewrite warnings_of_flat_map. apply flat_map_ext. intros w.
    rewrite warnings_of_app, checkFile_warnings.
    destruct (ActivityFile fs a); [apply app_nil_r |].
    rewrite checkListFile_warnings. apply app_nil_r.
  - intros fileArg H. unfold ManifestFile in H.
    apply andb_prop in H. destruct H as [He Hf].
    apply String.eqb_eq in He.
    unfold refusal, ActivityFile. rewrite Hf, He. reflexivity.
  - intros fileArg H. unfold refusal, ActivityFile. rewrite H. reflexivity.
Qed.

Lemma in_arg_filenames (fileArg f : string) :
  In f (arg_filenames fs fileArg) ->
  f = fileArg /\ ActivityFile fs fileArg = true /\ glob fs fileArg <> [].
Proof.
  unfold arg_filenames. destruct (ActivityFile fs fileArg); [| intros []].
  intros Hin. split; [apply (repeat_spec _ _ _ Hin) |].
  split; [reflexivity |].
  intros Hg. rewrite Hg in Hin. exact Hin.
Qed.

(** X3: a file name that the loop over the arguments puts in [filenames] is
    always one of the arguments, written as on the command line, never a
    path that [glob] expanded from it: the files a wildcard pattern matches
    are uploaded only if the pattern itself names a fitness file. *)
Theorem only_arguments_become_filenames (paths : list string) (ls : lists) :
  outcome (sort_paths fs paths) = Ok ls ->
  (forall f, In f (filenames ls) ->
             In f paths /\ ActivityFile fs f = true /\ glob fs f <> []) /\
  ((forall fileArg, In fileArg paths -> ActivityFile fs fileArg = false) ->
   filenames ls = []).
Proof.
  intros Hls. rewrite (proj1 (sort_paths_runs fs paths)) in Hls.
  injection Hls as <-. cbn [filenames].
  assert (H : forall f, In f (flat_map (arg_filenames fs) paths) ->
                        In f paths /\ ActivityFile fs f = true /\
                        glob fs f <> []).
  { intros f Hin. apply in_flat_map in Hin. destruct Hin as (a & Ha & Hf).
    apply in_arg_filenames in Hf. destruct Hf as (-> & Hact & Hg). auto. }
  split; [exact H |].
  intros Hnone. destruct (flat_map (arg_filenames fs) paths) as [|f l] eqn:E;
    [reflexivity |].
  destruct (H f (or_introl eq_refl)) as (Hin & Hact & _).
  rewrite (Hnone f Hin) in Hact. discriminate.
Qed.

Lemma collected_are_fitness_files (paths : list string) (ls : lists) :
  outcome (collect fs paths) = Ok ls ->
  Forall (fun f => ActivityFile fs f = true) (filenames ls).
Proof.
  intros Hls. rewrite (proj1 (collect_runs fs paths)) in Hls.
  injection Hls as <-. cbn [filenames].
  apply Forall_app. split; apply Forall_forall; intros f Hin;
    apply in_flat_map in Hin; destruct Hin as (a & _ & Hf).
  - apply in_arg_filenames in Hf. destruct Hf as (-> & Hact & _). exact Hact.
  - unfold dir_filenames in Hf. apply filter_In in Hf. apply Hf.
Qed.

(** X4: every workout of the list [workouts] names a file that [checkFile]
    accepts: a regular file with one of the accepted extensions, whether it
    was given as an argument, found in a directory or named by a row of a
    list file. *)
Theorem workouts_are_fitness_files (self : gupload_self)
  (workouts : list workoutTuple) :
  outcome (make_workouts fs self) = Ok workouts ->
  Forall (fun w => isfile fs (filename w) = true /\
                   In (Py.lower (snd (Py.splitext (filename w))))
                      VALID_GARMIN_FILE_EXTENSIONS)
         workouts.
Proof.
  intros Hws.
  pose proof (proj1 (collect_runs fs (paths self))) as Hls.
  rewrite (proj1 (make_workouts_runs fs self _ Hls)) in Hws.
  injection Hws as <-.
  assert (Hact : forall f, ActivityFile fs f = true ->
                 isfile fs f = true /\
                 In (Py.lower (snd (Py.splitext f))) VALID_GARMIN_FILE_EXTENSIONS).
  { intros f H. unfold ActivityFile, extension in H.
    apply andb_prop in H. destruct H as [Hf He].
    split; [exact Hf | apply str_in_In; exact He]. }
  apply Forall_app. split; apply Forall_forall; intros w Hin.
  - apply in_map_iff in Hin. destruct Hin as (f & <- & Hf). cbn [filename].
    apply Hact.
    pose proof (collected_are_fitness_files (paths self) _ Hls) as Hall.
    rewrite Forall_forall in Hall. apply Hall. exact Hf.
  - apply in_flat_map in Hin. destruct Hin as (l & _ & Hw).
    unfold listfile_workouts in Hw. apply in_map_iff in Hw.
    destruct Hw as (r & <- & Hr). apply filter_In in Hr. cbn [filename workout_of_row].
    apply Hact. apply Hr.
Qed.

(** X5: the lists of two runs of arguments put one after the other: the
    files named directly by either run come first, then the files found in
    the directories of either run; nothing is dropped as a duplicate, so
    that arguments given twice give every file twice. *)
Theorem collect_app (p q : list string) (sp sq lp lq : lists) :
  outcome (sort_paths fs p) = Ok sp ->
  outcome (sort_paths fs q) = Ok sq ->
  outcome (collect fs p) = Ok lp ->
  outcome (collect fs q) = Ok lq ->
  exists fp fq,
    filenames lp = filenames sp ++ fp /\
    filenames lq = filenames sq ++ fq /\
    outcome (collect fs (p ++ q)) =
    Ok (mkLists (filenames sp ++ filenames sq ++ fp ++ fq)
                (dirnames lp ++ dirnames lq)
                (listfiles lp ++ listfiles lq)).
Proof.
  intros Hsp Hsq Hlp Hlq.
  rewrite (proj1 (sort_paths_runs fs p)) in Hsp. injection Hsp as <-.
  rewrite (proj1 (sort_paths_runs fs q)) in Hsq. injection Hsq as <-.
  rewrite (proj1 (collect_runs fs p)) in Hlp. injection Hlp as <-.
  rewrite (proj1 (collect_runs fs q)) in Hlq. injection Hlq as <-.
  exists (flat_map (dir_filenames fs) (flat_map (arg_dirnames fs) p)),
         (flat_map (dir_filenames fs) (flat_map (arg_dirnames fs) q)).
  cbn [filenames dirnames listfiles].
  split; [reflexivity | split; [reflexivity |]].
  rewrite (proj1 (collect_runs fs (p ++ q))).
  rewrite !flat_map_app, <- !app_assoc. reflexivity.
Qed.


End ResolutionFacts.

(** ** More on the upload loop *)

Section UploadCalls.

Variable U : Uploader.

Ltac upload_cases E Hs :=
  unfold upload_workout, g_upload_file, g_set_workout_name,
    g_set_activity_type in E;
  match type of E with
  | context [name ?w] => destruct (name w) as [[|? ?]|]
  end;
  match type of E with
  | context [type ?w] => destruct (type w) as [[|? ?]|]
  end;
  match type of E with
  | context [upload_file U ?g ?f] =>
      destruct (upload_file U g f) as [[? ?] ?]
  end;
  cbv [bind ret emit app] in E;
  cbn [fst snd given] in *;
  match type of E with
  | context [String.eqb ?s ?ok] => destruct (String.eqb s ok) eqn:Hs
  end;
  cbv beta iota in E;
  repeat match type of E with
         | context [set_workout_name U ?a ?b ?c] =>
             destruct (set_workout_name U a b c) as [[|] ?];
             cbv beta iota in E; cbn [fst snd] in *
         | context [set_activity_type U ?a ?b ?c] =>
             destruct (set_activity_type U a b c) as [[|] ?];
             cbv beta iota in E; cbn [fst snd] in *
         end.

Lemma upload_workout_calls_eq (g : session U) (workout : workoutTuple) :
  calls_of (trace (upload_workout U g workout)) =
  UploadFile (filename workout) ::
  (if String.eqb (fst (fst (upload_file U g (filename workout)))) "SUCCESS"
   then
     map (SetWorkoutName (snd (fst (upload_file U g (filename workout)))))
         (given (name workout)) ++
     map (SetActivityType (snd (fst (upload_file U g (filename workout)))))
         (given (type workout))
   else []).
Proof.
  remember (upload_workout U g workout) as m eqn:E.
  upload_cases E Hs.
  all: subst m; cbn [fst snd trace]; rewrite ?Hs; reflexivity.
Qed.

Lemma annotation_calls (id_msg : string) (workout : workoutTuple) :
  let calls := map (SetWorkoutName id_msg) (given (name workout)) ++
               map (SetActivityType id_msg) (given (type workout)) in
  uploads_of calls = [] /\ List.length calls <= 2.
Proof.
  destruct (name workout) as [[|? ?]|], (type workout) as [[|? ?]|];
    simpl; split; auto.
Qed.

(** X7: the calls one turn of the loop makes: the upload first; after an
    upload whose status is [SUCCESS], the naming if the workout has a name,
    then the typing if it has a type, both with the identifier the upload
    returned, the typing whether or not the naming succeeded; after any
    other status, no further call. *)
Theorem upload_workout_calls (g : session U) (workout : workoutTuple) :
  calls_of (trace (upload_workout U g workout)) =
  UploadFile (filename workout) ::
  (if String.eqb (fst (fst (upload_file U g (filename workout)))) "SUCCESS"
   then
     map (SetWorkoutName (snd (fst (upload_file U g (filename workout)))))
         (given (name workout)) ++
     map (SetActivityType (snd (fst (upload_file U g (filename workout)))))
         (given (type workout))
   else []).
Proof. apply upload_workout_calls_eq. Qed.

(** X8: the line printed after a successful upload: the name column holds
    the name when the naming answered true, [FAIL!] when it answered false
    and [N/A] when the workout has no name; the type column likewise, the
    typing being asked of the session as the naming left it. *)
Theorem upload_workout_success_line (g : session U) (workout : workoutTuple) :
  let answer := upload_file U g (filename workout) in
  let id_msg := snd (fst answer) in
  let g1 := snd answer in
  let nstat :=
    match given (name workout) with
    | n :: _ => if fst (set_workout_name U g1 id_msg n) then n else "FAIL!"
    | [] => "N/A"
    end in
  let g2 :=
    match given (name workout) with
    | n :: _ => snd (set_workout_name U g1 id_msg n)
    | [] => g1
    end in
  let tstat :=
    match given (type workout) with
    | t :: _ => if fst (set_activity_type U g2 id_msg t) then t else "FAIL!"
    | [] => "N/A"
    end in
  fst (fst answer) = "SUCCESS" ->
  printed_of (trace (upload_workout U g workout)) =
  [mkStatus (filename workout) id_msg "SUCCESS" nstat tstat].
Proof.
  cbv zeta. intros Hok.
  remember (upload_workout U g workout) as m eqn:E.
  upload_cases E Hs.
  all: subst m; cbn [fst snd given trace] in *.
  all: first [ rewrite Hok in Hs; discriminate
             | subst; reflexivity ].
Qed.

(** X9: whatever the session answers, the loop uploads every workout
    exactly once, in the order of the list, and makes at most three calls
    per workout. *)
Theorem upload_all_uploads_each_once (workouts : list workoutTuple) :
  forall g,
    uploads_of (calls_of (trace (upload_all U g workouts))) =
    map filename workouts /\
    List.length (calls_of (trace (upload_all U g workouts))) <=
    3 * List.length workouts.
Proof.
  induction workouts as [|w ws IH]; intros g; [split; auto |].
  destruct (upload_workout_line U g w) as (g1 & _ & Ho & _).
  rewrite upload_all_cons, (bind_Ok _ _ g1 Ho). cbn [trace snd].
  rewrite calls_of_app, upload_workout_calls_eq.
  destruct (IH g1) as [IHu IHl].
  destruct (annotation_calls
              (snd (fst (upload_file U g (filename w)))) w) as [Hu Hl].
  cbv zeta in Hu, Hl.
  unfold uploads_of in *. rewrite flat_map_app, IHu. rewrite length_app.
  destruct (String.eqb _ _); cbn [flat_map app List.length map].
  - rewrite Hu. split; [reflexivity | simpl; lia].
  - split; [reflexivity | simpl; lia].
Qed.

End UploadCalls.

(** ** The password in the log *)

Lemma append_assoc_string (a b c : string) :
  ((a ++ b) ++ c = a ++ (b ++ c))%string.
Proof. induction a as [|x a IH]; simpl; [| rewrite IH]; reflexivity. Qed.

Lemma length_append_string (a b : string) :
  String.length (a ++ b)%string = String.length a + String.length b.
Proof. induction a as [|x a IH]; simpl; [| rewrite IH]; reflexivity. Qed.

Lemma stars_snoc (n : nat) : (stars n ++ "*")%string = stars (S n).
Proof. induction n as [|n IH]; simpl in *; [| rewrite IH]; reflexivity. Qed.

Lemma length_stars (n : nat) : String.length (stars n) = n.
Proof. induction n as [|n IH]; simpl; [| rewrite IH]; reflexivity. Qed.

Lemma append_empty_r (a : string) : (a ++ EmptyString)%string = a.
Proof. induction a as [|x a IH]; simpl; [| rewrite IH]; reflexivity. Qed.

Lemma fold_stars {A} (l : list A) :
  forall obscured,
    fold_left (fun obscured _ => (obscured ++ "*")%string) l obscured =
    (obscured ++ stars (List.length l))%string.
Proof.
  induction l as [|x l IH]; intros obscured; cbn [fold_left List.length].
  - cbn [stars]. rewrite append_empty_r. reflexivity.
  - rewrite IH, append_assoc_string. reflexivity.
Qed.

Lemma substring_last (s : string) (c : ascii) :
  substring (String.length s) 1 (s ++ String c EmptyString) =
  String c EmptyString.
Proof. induction s as [|x s IH]; simpl; [reflexivity | exact IH]. Qed.

Lemma string_snoc (c : ascii) (s : string) :
  exists init last, String c s = (init ++ String last EmptyString)%string.
Proof.
  revert c. induction s as [|x s IH]; intros c.
  - exists EmptyString, c. reflexivity.
  - destruct (IH x) as (init & last & E). rewrite E.
    exists (String c init), last. reflexivity.
Qed.

Lemma obscurePassword_long (c0 cl : ascii) (mid : string) :
  mid <> EmptyString ->
  obscurePassword (String c0 (mid ++ String cl EmptyString)) =
  ret (String c0 (stars (String.length mid) ++ String cl EmptyString)).
Proof.
  intros Hmid. destruct mid as [|m mid]; [contradiction |].
  assert (E : obscurePassword (String c0 (String m mid ++ String cl EmptyString))
              = ret (fold_left (fun obscured _ => (obscured ++ "*")%string)
                       (seq 1 (String.length
                                 (String c0 (String m mid ++ String cl EmptyString))
                               - 1 - 1))
                       (String c0 EmptyString)
                     ++ substring
                          (String.length
                             (String c0 (String m mid ++ String cl EmptyString)) - 1)
                          1 (String c0 (String m mid ++ String cl EmptyString)))%string).
  { destruct mid; reflexivity. }
  rewrite E. clear E. f_equal.
  rewrite fold_stars, length_seq.
  cbn [String.length append]. rewrite length_append_string.
  cbn [String.length].
  replace (S (S (String.length mid + 1)) - 1 - 1) with (S (String.length mid))
    by lia.
  replace (S (S (String.length mid + 1)) - 1) with
    (String.length (String c0 (String m mid))) by (simpl; lia).
  change (String c0 (String m (mid ++ String cl EmptyString)))%string
    with (String c0 (String m mid) ++ String cl EmptyString)%string.
  rewrite substring_last. reflexivity.
Qed.

(** X10: what [obscurePassword] puts in the log.  On the empty password it
    raises [IndexError].  Otherwise it returns a string of the length of
    the password.  Of a password of three or more characters it shows the
    first and the last character and a star for each of the others; of a
    password of two characters it shows the second character, in the place
    of the first; of a password of one character it shows nothing. *)
Theorem obscurePassword_shape :
  obscurePassword EmptyString = raise (IndexError "string index out of range") /\
  (forall password o,
     outcome (obscurePassword password) = Ok o ->
     String.length o = String.length password) /\
  (forall c0 mid cl,
     mid <> EmptyString ->
     obscurePassword (String c0 (mid ++ String cl EmptyString)) =
     ret (String c0 (stars (String.length mid) ++ String cl EmptyString))) /\
  (forall c0 c1,
     obscurePassword (String c0 (String c1 EmptyString)) = ret (String c1 "*")) /\
  (forall c0, obscurePassword (String c0 EmptyString) = ret "*"%string).
Proof.
  split; [reflexivity |].
  split; [| split; [intros c0 mid cl; apply obscurePassword_long
                   | split; reflexivity]].
  intros password o H.
  destruct password as [|c0 [|c1 [|c2 r]]];
    [discriminate | injection H as <-; reflexivity
     | injection H as <-; reflexivity |].
  destruct (string_snoc c2 r) as (init & last & E).
  assert (Hmid : String c1 init <> EmptyString) by discriminate.
  pose proof (obscurePassword_long c0 last (String c1 init) Hmid) as Hlong.
  cbn [append] in Hlong. rewrite <- E in Hlong.
  rewrite Hlong in H. injection H as <-.
  cbn [String.length]. rewrite length_append_string, length_stars.
  cbn [String.length].
  assert (El : String.length (String c2 r) = String.length init + 1).
  { rewrite E. apply length_append_string. }
  cbn [String.length] in El. lia.
Qed.

(** ** How the run ends *)

Section Outcomes.

Variable plat : Platform.
Variable fs : FileSystem.
Variable U : Uploader.



Lemma init_sources (options : options)
  (g : gupload_self) :
  fst (__init__ plat fs options) = inr g ->
  logLevel g = opt_verbose options * 10 /\
  paths g = opt_paths options /\
  activityType g = opt_type options /\
  activityName g = opt_name options /\
  ((opt_username options = Some (username g) /\
    opt_password options = Some (password g) /\
    username g <> EmptyString /\ password g <> EmptyString) \/
   (Py.truthy (opt_username options) && Py.truthy (opt_password options)
    = false /\
    exists file,
      (file = configCurrentDir plat fs \/
       (file = configHomeDir plat /\
        isfile fs (configCurrentDir plat fs) = false)) /\
      isfile fs file = true /\
      config_credentials plat file = inr (username g, password g))).
Proof.
  unfold __init__. intros H.
  destruct (opt_username options) as [[|cu ru]|];
    destruct (opt_password options) as [[|cp rp]|];
    cbn [Py.truthy andb].
  5: { cbn [fst] in H. injection H as <-.
       cbn [logLevel paths activityType activityName username password].
       repeat (split; [reflexivity |]).
       left. repeat split; discriminate. }
  all: destruct (isfile fs (configCurrentDir plat fs)) eqn:Hcwd;
    [| destruct (isfile fs (configHomeDir plat)) eqn:Hhome;
       [| discriminate]].
  all: cbn [fst] in H;
    match type of H with
    | context [config_credentials plat ?f] =>
        destruct (config_credentials plat f) as [e|[u p]] eqn:Hc
    end.
  all: try discriminate.
  all: injection H as <-;
    cbn [logLevel paths activityType activityName username password];
    repeat (split; [reflexivity |]);
    right; (split; [reflexivity |]).
  all: first [ exists (configCurrentDir plat fs);
               split; [left; reflexivity | split; assumption]
             | exists (configHomeDir plat);
               split; [right; split; reflexivity | split; assumption] ].
Qed.


(** X12: the object [__init__] builds has the paths, the type and the name
    of the options and ten times their verbosity as log level.  Its
    credentials come from one source: both from the command line, when both
    were given there and are not empty; else both from the config file of
    the current directory when that file exists, whatever was given on the
    command line; else both from the config file of the home directory. *)
Theorem init_credentials_from_one_source (options : options)
  (g : gupload_self) :
  fst (__init__ plat fs options) = inr g ->
  logLevel g = opt_verbose options * 10 /\
  paths g = opt_paths options /\
  activityType g = opt_type options /\
  activityName g = opt_name options /\
  ((opt_username options = Some (username g) /\
    opt_password options = Some (password g) /\
    username g <> EmptyString /\ password g <> EmptyString) \/
   (Py.truthy (opt_username options) && Py.truthy (opt_password options)
    = false /\
    exists file,
      (file = configCurrentDir plat fs \/
       (file = configHomeDir plat /\
        isfile fs (configCurrentDir plat fs) = false)) /\
      isfile fs file = true /\
      config_credentials plat file = inr (username g, password g))).
Proof. apply init_sources. Qed.






End Outcomes.

(** ** The further theorems on the small file system *)

Lemma arguments_are_warned_per_expansion_witness :
  refusal Demo.fs "batch.csv" =
  [Log WARNING
       "File 'batch.csv' extension '.csv' is not valid. Skipping file..."] /\
  refusal Demo.fs "acts" =
  [Log WARNING "File 'acts' does not exist. Skipping..."].
Proof.
  split.
  - apply (proj1 (proj2 (arguments_are_warned_per_expansion Demo.fs))).
    reflexivity.
  - apply (proj2 (proj2 (arguments_are_warned_per_expansion Demo.fs))).
    reflexivity.
Defined.

Lemma only_arguments_become_filenames_witness :
  (forall f, In f ["ride.fit"] ->
             In f ["ride.fit"; "*.fit"] /\
             ActivityFile Demo.fs f = true /\ glob Demo.fs f <> []) /\
  filenames (mkLists [] [] []) = [].
Proof.
  split.
  - exact (proj1 (only_arguments_become_filenames Demo.fs
                    ["ride.fit"; "*.fit"] (mkLists ["ride.fit"] [] [])
                    eq_refl)).
  - apply (proj2 (only_arguments_become_filenames Demo.fs ["*.fit"]
                    (mkLists [] [] []) eq_refl)).
    intros fileArg [<- | []]. reflexivity.
Defined.

Lemma workouts_are_fitness_files_witness :
  Forall (fun w => isfile Demo.fs (filename w) = true /\
                   In (Py.lower (snd (Py.splitext (filename w))))
                      VALID_GARMIN_FILE_EXTENSIONS)
         [Demo.ride; Demo.run; Demo.lake_loop].
Proof.
  exact (workouts_are_fitness_files Demo.fs Demo.two_files
           [Demo.ride; Demo.run; Demo.lake_loop] eq_refl).
Defined.

Lemma collect_app_witness :
  outcome (collect Demo.fs (["acts"] ++ ["ride.fit"])) =
  Ok (mkLists ["ride.fit"; "/home/u/acts/x.gpx"] ["/home/u/acts"] []).
Proof.
  destruct (collect_app Demo.fs ["acts"] ["ride.fit"]
              (mkLists [] ["/home/u/acts"] []) (mkLists ["ride.fit"] [] [])
              (mkLists ["/home/u/acts/x.gpx"] ["/home/u/acts"] [])
              (mkLists ["ride.fit"] [] [])
              eq_refl eq_refl eq_refl eq_refl)
    as (fp & fq & Hp & Hq & H).
  cbn [filenames dirnames listfiles app] in Hp, Hq, H.
  rewrite <- Hp in H. injection Hq as <-. exact H.
Defined.


Lemma upload_workout_success_line_witness :
  printed_of (trace (upload_workout Demo.server tt DemoInit.ghost)) =
  [mkStatus "a.tcx" "id:a.tcx" "SUCCESS" "FAIL!" "cycling"].
Proof.
  exact (upload_workout_success_line Demo.server tt DemoInit.ghost eq_refl).
Defined.

Lemma obscurePassword_shape_witness :
  String.length "s****t" = String.length "secret" /\
  obscurePassword "secret" = ret "s****t"%string.
Proof.
  split.
  - exact (proj1 (proj2 obscurePassword_shape) "secret" "s****t"%string
             eq_refl).
  - apply (proj1 (proj2 (proj2 obscurePassword_shape)) "s"%char "ecre"%string
             "t"%char).
    discriminate.
Defined.

Lemma init_credentials_from_one_source_witness :
  exists g,
    fst (__init__ DemoInit.plat DemoInit.fs DemoInit.without_login) = inr g /\
    username g = "alice" /\
    paths g = ["ride.fit"] /\
    Py.truthy (Some "user") && Py.truthy None = false.
Proof.
  eexists. split; [reflexivity |]. split; [reflexivity |].
  destruct (init_credentials_from_one_source DemoInit.plat DemoInit.fs
              DemoInit.without_login _ eq_refl)
    as (_ & Hpaths & _ & _ & [(Hu & _) | (Hnot & _)]).
  - discriminate Hu.
  - split; [exact Hpaths | exact Hnot].
Defined.

